(** * Verification model of [app.py]: the [/execute/python] endpoint

    The development embeds the two functions of [src/app.py],
    [run_subprocess] and [execute_python], over an explicit model of what
    they touch: Python text, the request payload, the temporary-file
    namespace and the two child processes ([python] and [flake8]).

    Conventions.
    - Python [str] values are [string]s; a character is a code point below
      256 and [isspace] is Python's [str.isspace] on that range.
    - Python [int] values are [Z].
    - [None] is the [None] of an [option].
    - Exceptions are values of type [exn]; a statement that may raise lives
      in the monad [M], which threads the handler's local variables and the
      outside world and returns either a value or the raised exception. *)

From Stdlib Require Import ZArith String Ascii List Bool Lia DecimalString.
From stdpp Require Import gmap strings.
Import ListNotations.

Open Scope string_scope.

#[global] Arguments String.append !_ _ / : simpl nomatch.

(** ** Python text primitives *)

Module PyStr.

(** [str.isspace] for one character, on code points 0..255:
    TAB..CR, FS..US, SPACE, NEL and NBSP. *)
Definition isspace (c : ascii) : bool :=
  let n := nat_of_ascii c in
  ((9 <=? n)%nat && (n <=? 13)%nat) || ((28 <=? n)%nat && (n <=? 32)%nat)
  || (n =? 133)%nat || (n =? 160)%nat.

Definition is_empty (s : string) : bool :=
  match s with "" => true | String _ _ => false end.

(** [s.lstrip()] *)
Fixpoint lstrip (s : string) : string :=
  match s with
  | "" => ""
  | String c s' => if isspace c then lstrip s' else s
  end.

(** [s.rstrip()] *)
Fixpoint rstrip (s : string) : string :=
  match s with
  | "" => ""
  | String c s' =>
      let r := rstrip s' in
      if isspace c && is_empty r then "" else String c r
  end.

(** [s.strip()] *)
Definition strip (s : string) : string := lstrip (rstrip s).

(** [s.startswith(p)] *)
Fixpoint startswith (p s : string) : bool :=
  match p, s with
  | "", _ => true
  | String _ _, "" => false
  | String a p', String b s' => Ascii.eqb a b && startswith p' s'
  end.

(** [sub in s] *)
Fixpoint contains (sub s : string) : bool :=
  startswith sub s ||
  match s with
  | "" => false
  | String _ s' => contains sub s'
  end.

(** The text before the first [sep] and, when there is one, the text after
    it: the core of [str.partition] and of both [split] forms below. *)
Fixpoint cut (sep : ascii) (s : string) : string * option string :=
  match s with
  | "" => ("", None)
  | String c s' =>
      if Ascii.eqb c sep then ("", Some s')
      else let (h, t) := cut sep s' in (String c h, t)
  end.

(** [s.split(sep, maxsplit)] for a one-character separator and
    [maxsplit >= 0]: at most [maxsplit] cuts, the rest kept whole. *)
Fixpoint splitn (sep : ascii) (maxsplit : nat) (s : string) : list string :=
  match maxsplit with
  | O => [s]
  | S n =>
      match cut sep s with
      | (h, None) => [h]
      | (h, Some t) => h :: splitn sep n t
      end
  end.

(** [s.split(sep)] for a one-character separator: cut at every [sep].
    The first component is the first field, the second the remaining
    fields, so the result is never the empty list. *)
Fixpoint split_fields (sep : ascii) (s : string) : string * list string :=
  match s with
  | "" => ("", [])
  | String c s' =>
      let (w, ws) := split_fields sep s' in
      if Ascii.eqb c sep then ("", w :: ws) else (String c w, ws)
  end.

Definition split (sep : ascii) (s : string) : list string :=
  let (w, ws) := split_fields sep s in w :: ws.

(** [c not in s] for a character [c] *)
Fixpoint free_of (c : ascii) (s : string) : bool :=
  match s with
  | "" => true
  | String x s' => negb (Ascii.eqb x c) && free_of c s'
  end.

(** [sep.join(parts)] *)
Definition join (sep : string) (parts : list string) : string :=
  String.concat sep parts.

(** [str(n)] for an [int] *)
Definition of_int (n : Z) : string := NilZero.string_of_int (Z.to_int n).

(** Truth value of an optional text: [None] and [""] are false. *)
Definition truthy (o : option string) : bool :=
  match o with
  | Some s => negb (is_empty s)
  | None => false
  end.

#[global] Arguments join : simpl never.

End PyStr.

(** The line feed, and the one-character text holding it. *)
Definition LF : ascii := "010"%char.
Definition nl : string := String LF "".

(** ** Exceptions, payloads, responses *)

(** The exception classes the handler can meet; all derive from
    [Exception]. [exn_str] is [str(e)]. *)
Inductive exn_class :=
  | TimeoutExpired
  | TypeError
  | AttributeError
  | OSError
  | UnicodeDecodeError
  | BadRequest
  | OtherException.

Record exn := Exn { exn_cls : exn_class; exn_str : string }.

Definition is_TimeoutExpired (e : exn) : bool :=
  match exn_cls e with TimeoutExpired => true | _ => false end.

Inductive result (A : Type) :=
  | Ok (a : A)
  | Raise (e : exn).
Arguments Ok {A} a.
Arguments Raise {A} e.

#[local] Set Warnings "-register-all".

(** A decoded JSON payload as Python sees it: [JNull] is [None], [JObj] a
    [dict] given by its members in document order, [JArr] a [list]. *)
Inductive json :=
  | JNull
  | JBool (b : bool)
  | JInt (n : Z)
  | JFloat (literal : string)
  | JStr (s : string)
  | JArr (items : list json)
  | JObj (members : list (string * json)).

Definition type_name (v : json) : string :=
  match v with
  | JNull => "NoneType"
  | JBool _ => "bool"
  | JInt _ => "int"
  | JFloat _ => "float"
  | JStr _ => "str"
  | JArr _ => "list"
  | JObj _ => "dict"
  end.

Definition is_None (v : json) : bool :=
  match v with JNull => true | _ => false end.

(** Member lookup of a decoded object; the decoder keeps the last of
    several members with one name. *)
Fixpoint lookup_member (key : string) (members : list (string * json)) : option json :=
  match members with
  | [] => None
  | (k, v) :: rest =>
      match lookup_member key rest with
      | Some v' => Some v'
      | None => if String.eqb k key then Some v else None
      end
  end.

(** [data.get(key)]: the member, [None] when there is none; any payload
    that is not a [dict] has no [get] attribute. *)
Definition dict_get (data : json) (key : string) : result json :=
  match data with
  | JObj members =>
      Ok (match lookup_member key members with Some v => v | None => JNull end)
  | _ =>
      Raise (Exn AttributeError
               ("'" ++ type_name data ++ "' object has no attribute 'get'"))
  end.

(** The request as the handler reads it: [request.is_json], which looks
    at the content type alone, and what [request.get_json()] does: it
    returns the decoded payload, or raises (a [BadRequest]) when the body
    does not parse. *)
Record request := Request { is_json : bool; get_json : result json }.

(** The three-field answer of a processed submission, by JSON key. *)
Record ExecutionReport := Report {
  rep_output : string;
  rep_error : string;
  rep_lint_feedback : string
}.

Inductive body :=
  | ErrorBody (message : string)          (* {"error": message} *)
  | ReportBody (r : ExecutionReport).

(** What a call of the handler ends in: a response with its status, or an
    exception leaving the handler, which the framework then answers (with
    the status of the exception for a [BadRequest], 400, and with 500 for
    any other). *)
Inductive outcome :=
  | Response (status : Z) (b : body)
  | Propagates (e : exn).

(** ** The outside world *)

(** The temporary-file namespace is a set of path names. The handler's
    own file operations and server-side prints are recorded, most recent
    first. *)
Inductive event :=
  | Created (path : string)
  | Removed (path : string)
  | Printed (line : string).

Record world := World { fs : gset string; trace : list event }.

(** What a child process does when started from a command line.
    - [CannotLaunch e]: the launch fails with the exception [e].
    - [Runs duration stdout stderr returncode touch]: the child runs; if
      nothing stops it earlier, [duration] milliseconds pass until it has
      ended and both captured streams are closed (a process it started
      that keeps a stream open prolongs this); the bytes it wrote decode
      to [stdout] and [stderr]; [returncode] is the code [subprocess]
      reports, the exit status or [-N] for a child ended by signal [N];
      [touch] is its effect on the file namespace.
    - [Undecodable duration detail touch]: the child runs in the same
      way, but what it wrote is not valid text, so that decoding the
      captured bytes raises [UnicodeDecodeError] with message [detail]. *)
Inductive behaviour :=
  | CannotLaunch (e : exn)
  | Runs (duration : N) (stdout stderr : string) (returncode : Z)
         (touch : gset string -> gset string)
  | Undecodable (duration : N) (detail : string)
         (touch : gset string -> gset string).

(** The parts of the host the handler depends on. *)
Record env := Env {
  (* NamedTemporaryFile(mode='w', suffix='.py', delete=False): the name of
     the file it creates, or the error it raises *)
  mkstemp : gset string -> result string;
  (* a failure of writing, flushing or closing the file, for this text *)
  write_fault : string -> option exn;
  (* the process started by a command line *)
  spawn : list string -> gset string -> behaviour;
  (* a failure of os.remove on this path *)
  remove_fault : string -> option exn
}.

(** ** Configuration *)

Definition EXECUTION_TIMEOUT : Z := 5.

(** ** [run_subprocess] *)

Record CompletedProcess := Completed {
  cp_stdout : string;
  cp_stderr : string;
  cp_returncode : Z
}.

(** [subprocess.run(command, capture_output=True, text=True,
    timeout=timeout, check=False)]: with a timeout of [t] seconds a child
    whose streams are still open after [t] seconds is killed and
    [TimeoutExpired] is raised; without one the child is waited for. The
    captured bytes are decoded once they are complete, which is where
    undecodable output raises. *)
Definition subprocess_run (E : env) (command : list string) (timeout : option Z)
    (w : world) : result CompletedProcess * world :=
  match spawn E command (fs w) with
  | CannotLaunch e => (Raise e, w)
  | Runs duration out err rc touch =>
      let w' := World (touch (fs w)) (trace w) in
      match timeout with
      | Some t =>
          if (t * 1000 <? Z.of_N duration)%Z
          then (Raise (Exn TimeoutExpired "Command timed out"), w')
          else (Ok (Completed out err rc), w')
      | None => (Ok (Completed out err rc), w')
      end
  | Undecodable duration detail touch =>
      let w' := World (touch (fs w)) (trace w) in
      match timeout with
      | Some t =>
          if (t * 1000 <? Z.of_N duration)%Z
          then (Raise (Exn TimeoutExpired "Command timed out"), w')
          else (Raise (Exn UnicodeDecodeError detail), w')
      | None => (Raise (Exn UnicodeDecodeError detail), w')
      end
  end.

(** [f"{timeout}"] for the optional timeout. *)
Definition fmt_timeout (timeout : option Z) : string :=
  match timeout with
  | Some t => PyStr.of_int t
  | None => "None"
  end.

(** Lines 19-36. The triple is [(stdout, stderr, returncode)]. *)
Definition run_subprocess (E : env) (command : list string) (timeout : option Z)
    (w : world) : (option string * option string * Z) * world :=
  match subprocess_run E command timeout w with
  | (Ok result, w') =>
      ((Some (cp_stdout result), Some (cp_stderr result), cp_returncode result), w')
  | (Raise e, w') =>
      if is_TimeoutExpired e then
        ((None,
          Some ("Execution timed out after " ++ fmt_timeout timeout ++ " seconds."),
          (-1)%Z), w')
      else
        ((None, Some ("Error running subprocess: " ++ exn_str e), (-2)%Z), w')
  end.

(** ** The handler's local variables and its statement monad *)

Record locals := Locals {
  output : string;
  error : string;
  lint_feedback : string;
  temp_file_path : option string
}.

Definition state : Type := locals * world.

(** A statement: from the state before to the state after, with a value
    or the exception it raised. Assignments made before a raise stay
    visible to the [except] and [finally] clauses. *)
Definition M (A : Type) : Type := state -> result A * state.

Definition ret {A} (a : A) : M A := fun st => (Ok a, st).

Definition raise {A} (e : exn) : M A := fun st => (Raise e, st).

Definition bind {A B} (m : M A) (k : A -> M B) : M B :=
  fun st =>
    match m st with
    | (Ok a, st') => k a st'
    | (Raise e, st') => (Raise e, st')
    end.

Declare Scope stmt_scope.
Delimit Scope stmt_scope with stmt.
Notation "x <- m ;; k" := (bind m (fun x => k))
  (at level 100, m at next level, right associativity) : stmt_scope.
Notation "m ;; k" := (bind m (fun _ => k))
  (at level 100, right associativity) : stmt_scope.
Open Scope stmt_scope.

Definition get_locals : M locals := fun st => (Ok (fst st), st).

Definition set_locals (f : locals -> locals) : M unit :=
  fun st => (Ok tt, (f (fst st), snd st)).

Definition when (b : bool) (m : M unit) : M unit :=
  if b then m else ret tt.

Definition set_output (v : string) : locals -> locals :=
  fun l => Locals v (error l) (lint_feedback l) (temp_file_path l).
Definition set_error (v : string) : locals -> locals :=
  fun l => Locals (output l) v (lint_feedback l) (temp_file_path l).
Definition set_lint_feedback (v : string) : locals -> locals :=
  fun l => Locals (output l) (error l) v (temp_file_path l).
Definition set_temp_file_path (v : option string) : locals -> locals :=
  fun l => Locals (output l) (error l) (lint_feedback l) v.

(** *** World operations *)

(** [tempfile.NamedTemporaryFile(mode='w', suffix='.py', delete=False)] *)
Definition NamedTemporaryFile (E : env) : M string :=
  fun st =>
    let '(l, w) := st in
    match mkstemp E (fs w) with
    | Raise e => (Raise e, st)
    | Ok name => (Ok name, (l, World ({[name]} ∪ fs w) (Created name :: trace w)))
    end.

(** The exception, if any, of [temp_file.write(code)] and of the close at
    the end of the [with] block: [write] accepts text only. *)
Definition write_error (E : env) (code : json) : option exn :=
  match code with
  | JStr text => write_fault E text
  | _ => Some (Exn TypeError ("write() argument must be str, not " ++ type_name code))
  end.

Definition write_and_close (E : env) (code : json) : M unit :=
  match write_error E code with
  | Some e => raise e
  | None => ret tt
  end.

Definition call_run_subprocess (E : env) (command : list string)
    (timeout : option Z) : M (option string * option string * Z) :=
  fun st =>
    let '(l, w) := st in
    let '(r, w') := run_subprocess E command timeout w in
    (Ok r, (l, w')).

(** [os.path.exists(path)] *)
Definition path_exists (path : string) (w : world) : bool :=
  bool_decide (path ∈ fs w).

(** ** The diagnostic formatter (lines 104-114) *)

Definition format_line (line : string) : string :=
  match PyStr.splitn ":" 3 line with
  | [_; p1; p2; p3] => "L" ++ p1 ++ ":" ++ p2 ++ ": " ++ PyStr.strip p3
  | _ => line
  end.

Definition format_lint_output (lint_stdout : string) : string :=
  let lines := PyStr.split LF (PyStr.strip lint_stdout) in
  let formatted_lines := map format_line lines in
  PyStr.join nl formatted_lines.

(** ** [execute_python] *)

(** Lines 84-93: the error text after the return code is taken into
    account. *)
Definition add_error_context (return_code : Z) (error : string) : string :=
  if (return_code =? -1)%Z then
    PyStr.strip ("Timeout Error: Execution exceeded "
                 ++ PyStr.of_int EXECUTION_TIMEOUT ++ " seconds. " ++ error)
  else if (return_code =? -2)%Z then
    PyStr.strip ("Execution Error: Failed to run subprocess. " ++ error)
  else if negb (return_code =? 0)%Z then
    let error_msg :=
      "Process exited with status code " ++ PyStr.of_int return_code ++ "." in
    if negb (PyStr.contains error_msg error)
    then PyStr.strip (error_msg ++ " " ++ error)
    else error
  else error.

(** Line 118: the text added to [lint_feedback] for a non-empty linter
    error stream; [strip] applies to the formatted text alone. *)
Definition flake8_error_section (lint_stderr : string) : string :=
  PyStr.strip (nl ++ "--- Flake8 Error ---" ++ nl ++ lint_stderr).

(** Lines 60-120: the body of the [try] statement. *)
Definition try_body (E : env) (code : json) : M unit :=
  (* with tempfile.NamedTemporaryFile(...) as temp_file: *)
  name <- NamedTemporaryFile E ;;
  set_locals (set_temp_file_path (Some name)) ;;
  write_and_close E code ;;
  (* execute *)
  let exec_command := ["python"; name] in
  r <- call_run_subprocess E exec_command (Some EXECUTION_TIMEOUT) ;;
  let '(exec_stdout, exec_stderr, return_code) := r in
  match exec_stdout with
  | Some out => set_locals (set_output out)
  | None => ret tt
  end ;;
  match exec_stderr with
  | Some err => set_locals (fun l => set_error (error l ++ err) l)
  | None => ret tt
  end ;;
  set_locals (fun l => set_error (add_error_context return_code (error l)) l) ;;
  (* lint *)
  let lint_command := ["flake8"; name] in
  r <- call_run_subprocess E lint_command None ;;
  let '(lint_stdout, lint_stderr, lint_return_code) := r in
  match lint_stdout with
  | Some out =>
      when (PyStr.truthy lint_stdout)
        (set_locals (set_lint_feedback (format_lint_output out)))
  | None => ret tt
  end ;;
  match lint_stderr with
  | Some err =>
      when (PyStr.truthy lint_stderr)
        (set_locals (fun l =>
           set_lint_feedback (lint_feedback l ++ flake8_error_section err) l))
  | None => ret tt
  end.

(** Lines 123-125: the [except Exception as e] clause. *)
Definition except_clause (e : exn) (st : state) : state :=
  let '(l, w) := st in
  (set_error (error l ++ nl ++ "Server Error during processing: " ++ exn_str e) l, w).

(** Line 133: the warning printed when the removal fails. *)
Definition removal_warning (path : string) (e : exn) : string :=
  "Warning: Failed to delete temporary file " ++ path ++ ": " ++ exn_str e.

(** Lines 126-133: the [finally] clause. *)
Definition finally_clause (E : env) (st : state) : state :=
  let '(l, w) := st in
  match temp_file_path l with
  | Some path =>
      if PyStr.truthy (temp_file_path l) && path_exists path w then
        match remove_fault E path with
        | None => (l, World (fs w ∖ {[path]}) (Removed path :: trace w))
        | Some e =>
            (l, World (fs w) (Printed (removal_warning path e) :: trace w))
        end
      else st
  | None => st
  end.

(** Lines 59-142: the coordinator, from the initialised variables to the
    response. *)
Definition process_submission (E : env) (code : json) (w : world) : outcome * world :=
  let st0 := (Locals "" "" "" None, w) in
  let st1 :=
    match try_body E code st0 with
    | (Ok _, st) => st
    | (Raise e, st) => except_clause e st
    end in
  let '(l, w') := finally_clause E st1 in
  (Response 200
     (ReportBody (Report (PyStr.strip (output l)) (PyStr.strip (error l))
                         (PyStr.strip (lint_feedback l)))),
   w').

(** Lines 40-142. *)
Definition execute_python (E : env) (req : request) (w : world) : outcome * world :=
  if negb (is_json req) then
    (Response 400 (ErrorBody "Request must be JSON"), w)
  else
    match get_json req with
    | Raise e => (Propagates e, w)
    | Ok data =>
        match dict_get data "code" with
        | Raise e => (Propagates e, w)
        | Ok code =>
            if is_None code then
              (Response 400 (ErrorBody "Missing 'code' field in JSON payload"), w)
            else process_submission E code w
        end
    end.

(** ** Vocabulary of the statements below *)

(** The world right after the workspace [name] has been created. *)
Definition with_workspace (name : string) (w : world) : world :=
  World ({[name]} ∪ fs w) (Created name :: trace w).

(** The paths a trace shows as created, and as removed. *)
Definition created_paths (t : list event) : list string :=
  flat_map (fun ev => match ev with Created p => [p] | _ => [] end) t.

Definition removed_paths (t : list event) : list string :=
  flat_map (fun ev => match ev with Removed p => [p] | _ => [] end) t.

Definition printed_lines (t : list event) : list string :=
  flat_map (fun ev => match ev with Printed s => [s] | _ => [] end) t.

(** The call of the runner on the submission, and the one on the linter
    that follows it. *)
Definition exec_call (E : env) (name : string) (w : world) :=
  run_subprocess E ["python"; name] (Some EXECUTION_TIMEOUT) (with_workspace name w).

Definition lint_call (E : env) (name : string) (w : world) :=
  run_subprocess E ["flake8"; name] None (snd (exec_call E name w)).

(** The three variables as the [try] body leaves them when nothing is
    raised, from the two triples the runner returned. *)
Definition output_of (exec : option string * option string * Z) : string :=
  match exec with
  | (Some out, _, _) => out
  | (None, _, _) => ""
  end.

Definition error_of (exec : option string * option string * Z) : string :=
  match exec with
  | (_, Some err, return_code) => add_error_context return_code err
  | (_, None, return_code) => add_error_context return_code ""
  end.

Definition lint_feedback_of (lint : option string * option string * Z) : string :=
  match lint with
  | (lint_stdout, lint_stderr, _) =>
      (match lint_stdout with
       | Some out => if PyStr.is_empty out then "" else format_lint_output out
       | None => ""
       end)
      ++
      (match lint_stderr with
       | Some err => if PyStr.is_empty err then "" else flake8_error_section err
       | None => ""
       end)
  end.

(** A sample host: every temporary file is [/tmp/tmpk3v9.py], writes and
    removals succeed, [python] behaves as [exec] and anything else as
    [lint]. *)
Definition sample_host (exec lint : behaviour) : env :=
  Env (fun _ => Ok "/tmp/tmpk3v9.py")
      (fun _ => None)
      (fun command _ =>
         match command with
         | "python" :: _ => exec
         | _ => lint
         end)
      (fun _ => None).

(** A host on which no temporary file can be created. *)
Definition full_disk_host : env :=
  Env (fun _ => Raise (Exn OSError "[Errno 28] No space left on device"))
      (fun _ => None)
      (fun _ _ => CannotLaunch (Exn OSError "[Errno 2] No such file or directory"))
      (fun _ => None).

(** A linter that takes two and a half hours, reports one finding, writes
    to its error stream and ends with return code 1. *)
Definition slow_flake8 : behaviour :=
  Runs 9000000 "/tmp/tmpk3v9.py:1:2: E225 missing whitespace" "boom" 1
    (fun files => files).

(** A process that ends at once, silently, with return code 0. *)
Definition quiet : behaviour := Runs 40 "" "" 0 (fun files => files).

Definition empty_world : world := World ∅ [].

(** The request carrying [{"code": code}]. *)
Definition submission (code : json) : request :=
  Request true (Ok (JObj [("code", code)])).

(** The sentence line 91 builds from the return code. *)
Definition exit_sentence (return_code : Z) : string :=
  "Process exited with status code " ++ PyStr.of_int return_code ++ ".".


Definition is_str (v : json) : bool :=
  match v with JStr _ => true | _ => false end.

(** A text that ends with a character that is not white space. *)
Definition ends_nonspace (s : string) : Prop :=
  exists s' c, s = s' ++ String c "" /\ PyStr.isspace c = false.

(** Two hosts that differ at most in how [os.remove] fails. *)
Definition same_but_remove (E E' : env) : Prop :=
  mkstemp E = mkstemp E' /\ write_fault E = write_fault E' /\ spawn E = spawn E'.

(** A child that leaves the file namespace as it found it. *)
Definition leaves_files (b : behaviour) : Prop :=
  match b with
  | Runs _ _ _ _ touch => forall files, touch files = files
  | Undecodable _ _ touch => forall files, touch files = files
  | CannotLaunch _ => True
  end.

(** The world the [finally] clause starts from once the file [name]
    exists: the one the linter left, or, when the write failed, the one
    with just the new file. *)
Definition world_before_cleanup (E : env) (code : json) (name : string) (w : world)
    : world :=
  match write_error E code with
  | Some _ => with_workspace name w
  | None => snd (lint_call E name w)
  end.

(** A text without white space at either end. *)
Definition trimmed (s : string) : Prop :=
  s = ""
  \/ ((exists c t, s = String c t /\ PyStr.isspace c = false) /\ ends_nonspace s).

(** A host on which every command behaves as [b] and [os.remove] fails
    as [rm] says. *)
Definition uniform_host (b : behaviour) (rm : option exn) : env :=
  Env (fun _ => Ok "/tmp/tmpk3v9.py")
      (fun _ => None)
      (fun _ _ => b)
      (fun _ => rm).

(** A script that ends by deleting its own file. *)
Definition self_deleting : behaviour :=
  Runs 40 "" "" 0 (fun files => files ∖ {["/tmp/tmpk3v9.py"]}).

(** * The model on the inputs the specification names *)

Example strip_ex : PyStr.strip ("  a b" ++ nl ++ " ") = "a b".
Proof. reflexivity. Qed.

Example splitn_ex :
  PyStr.splitn ":" 3 "/tmp/x.py:1:2: E225 a:b" = ["/tmp/x.py"; "1"; "2"; " E225 a:b"].
Proof. reflexivity. Qed.

Example split_ex : PyStr.split ":" "a::b:" = ["a"; ""; "b"; ""].
Proof. reflexivity. Qed.

Example of_int_ex : PyStr.of_int (-2) = "-2" /\ PyStr.of_int 0 = "0".
Proof. split; reflexivity. Qed.

(** [print("hi")]: output [hi], no error, no lint finding. *)
Example hello_ex :
  fst (execute_python (sample_host (Runs 40 ("hi" ++ nl) "" 0 (fun files => files)) quiet)
         (submission (JStr "print(hi)")) empty_world)
  = Response 200 (ReportBody (Report "hi" "" "")).
Proof. vm_compute. reflexivity. Qed.

(** [1/0]: exit code 1 and a traceback on the error stream. *)
Example division_ex :
  fst (execute_python
         (sample_host
            (Runs 40 "" ("Traceback (most recent call last):" ++ nl
                         ++ "ZeroDivisionError: division by zero" ++ nl)
               1 (fun files => files))
            quiet)
         (submission (JStr "1/0")) empty_world)
  = Response 200 (ReportBody (Report ""
      ("Process exited with status code 1. Traceback (most recent call last):"
       ++ nl ++ "ZeroDivisionError: division by zero") "")).
Proof. vm_compute. reflexivity. Qed.

(** [x=1]: one diagnostic, without the path of the temporary file. *)
Example lint_ex :
  fst (execute_python
         (sample_host quiet
            (Runs 300 ("/tmp/tmpk3v9.py:1:2: E225 missing whitespace around operator" ++ nl)
               "" 1 (fun files => files)))
         (submission (JStr "x=1")) empty_world)
  = Response 200 (ReportBody (Report "" ""
      "L1:2: E225 missing whitespace around operator")).
Proof. vm_compute. reflexivity. Qed.

(** The file is created once and removed once. *)
Example trace_ex :
  trace (snd (execute_python (sample_host quiet quiet)
                (submission (JStr "x = 1")) empty_world))
  = [Removed "/tmp/tmpk3v9.py"; Created "/tmp/tmpk3v9.py"].
Proof. vm_compute. reflexivity. Qed.

(** * Facts about the text primitives *)

Section TextFacts.
Import PyStr.

Lemma append_nil_r (s : string) : s ++ "" = s.
Proof. induction s as [|c s IH]; simpl; [reflexivity | now rewrite IH]. Qed.

Lemma append_assoc (a b c : string) : (a ++ b) ++ c = a ++ b ++ c.
Proof. induction a as [|x a IH]; simpl; [reflexivity | now rewrite IH]. Qed.

Lemma append_cons (c : ascii) (s : string) : String c s = String c "" ++ s.
Proof. reflexivity. Qed.

Lemma is_empty_true (s : string) : is_empty s = true -> s = "".
Proof. destruct s; [reflexivity | discriminate]. Qed.

Lemma is_empty_append (a b : string) :
  is_empty (a ++ b) = is_empty a && is_empty b.
Proof. destruct a; reflexivity. Qed.

(** *** Stripping *)

Lemma lstrip_head (c : ascii) (s : string) :
  isspace c = false -> lstrip (String c s) = String c s.
Proof. intros H. simpl. now rewrite H. Qed.

Lemma rstrip_head (c : ascii) (s : string) :
  isspace c = false -> rstrip (String c s) = String c (rstrip s).
Proof. intros H. simpl. now rewrite H. Qed.

Lemma lstrip_idem (s : string) : lstrip (lstrip s) = lstrip s.
Proof.
  induction s as [|c s IH]; simpl; [reflexivity|].
  destruct (isspace c) eqn:Hc; [exact IH | now apply lstrip_head].
Qed.

Lemma rstrip_idem (s : string) : rstrip (rstrip s) = rstrip s.
Proof.
  induction s as [|c s IH]; simpl; [reflexivity|].
  destruct (isspace c && is_empty (rstrip s)) eqn:Hc; [reflexivity|].
  simpl. now rewrite IH, Hc.
Qed.

Lemma rstrip_lstrip (s : string) : rstrip (lstrip s) = lstrip (rstrip s).
Proof.
  induction s as [|c s IH]; [reflexivity|].
  destruct (isspace c) eqn:Hc.
  - change (lstrip (String c s)) with (if isspace c then lstrip s else String c s).
    rewrite Hc, IH. simpl rstrip. rewrite Hc. simpl andb.
    destruct (is_empty (rstrip s)) eqn:He.
    + apply is_empty_true in He. now rewrite He.
    + simpl. now rewrite Hc.
  - rewrite (lstrip_head _ _ Hc), (rstrip_head _ _ Hc). now rewrite lstrip_head.
Qed.

Lemma strip_idem (s : string) : strip (strip s) = strip s.
Proof.
  unfold strip. now rewrite rstrip_lstrip, rstrip_idem, lstrip_idem.
Qed.

(** Right-stripping never reaches past a character that is not white
    space. *)
Lemma rstrip_keep (a : string) (c : ascii) (s : string) :
  isspace c = false -> rstrip (a ++ String c s) = a ++ String c (rstrip s).
Proof.
  intros Hc. induction a as [|x a IH]; simpl.
  - now rewrite Hc.
  - rewrite IH, is_empty_append. simpl. now rewrite !andb_false_r.
Qed.

(** Left-stripping stops at the first character that is not white space:
    what it removes is a prefix of the text before that character. *)
Lemma lstrip_keep (a : string) (c : ascii) (s : string) :
  isspace c = false -> exists a', lstrip (a ++ String c s) = a' ++ String c s.
Proof.
  intros Hc. induction a as [|x a [a' IH]]; simpl.
  - exists "". now rewrite Hc.
  - destruct (isspace x); [now exists a' | now exists (String x a)].
Qed.

(** The outcome of [strip] around a segment that starts and ends with
    characters that are not white space. *)
Lemma strip_keep (a : string) (k : ascii) (m : string) (c : ascii) (b : string) :
  isspace k = false -> isspace c = false ->
  exists a', strip (a ++ String k (m ++ String c b))
             = a' ++ String k (m ++ String c (rstrip b)).
Proof.
  intros Hk Hc. unfold strip.
  replace (a ++ String k (m ++ String c b))
    with ((a ++ String k m) ++ String c b)
    by (rewrite append_assoc; reflexivity).
  rewrite (rstrip_keep _ _ _ Hc), append_assoc. simpl.
  apply (lstrip_keep a k _ Hk).
Qed.

Lemma rstrip_ends_nonspace (a s : string) :
  ends_nonspace s -> rstrip (a ++ s) = a ++ s.
Proof.
  intros (s' & c & -> & Hc). rewrite <- append_assoc.
  now rewrite (rstrip_keep _ _ _ Hc).
Qed.

(** *** Prefix and substring tests *)

Lemma startswith_spec (p s : string) :
  startswith p s = true <-> exists t, s = p ++ t.
Proof.
  revert s. induction p as [|a p IH]; intros s; simpl.
  - split; [intros _; now exists s | reflexivity].
  - destruct s as [|b s].
    + split; [discriminate | intros [t Ht]; discriminate].
    + rewrite andb_true_iff, Ascii.eqb_eq, IH. split.
      * intros [-> [t ->]]. now exists t.
      * intros [t Ht]. injection Ht as -> ->. split; [reflexivity | now exists t].
Qed.

Lemma contains_spec (sub s : string) :
  contains sub s = true <-> exists a b, s = a ++ sub ++ b.
Proof.
  induction s as [|c s IH].
  - simpl. rewrite orb_false_r, startswith_spec. split.
    + intros [t Ht]. now exists "", t.
    + intros [a [b H]]. destruct a; [now exists b | discriminate].
  - change (contains sub (String c s))
      with (startswith sub (String c s) || contains sub s).
    rewrite orb_true_iff, startswith_spec, IH. split.
    + intros [[t Ht] | [a [b ->]]]; [now exists "", t | now exists (String c a), b].
    + intros [a [b H]]. destruct a as [|x a]; simpl in H.
      * left. now exists b.
      * right. injection H as _ ->. now exists a, b.
Qed.

(** *** Characters that do not occur *)

Lemma free_of_append (c : ascii) (a b : string) :
  free_of c (a ++ b) = free_of c a && free_of c b.
Proof.
  induction a as [|x a IH]; simpl; [reflexivity|].
  now rewrite IH, andb_assoc.
Qed.

Lemma free_of_lstrip (c : ascii) (s : string) :
  free_of c s = true -> free_of c (lstrip s) = true.
Proof.
  induction s as [|x s IH]; [reflexivity|].
  intros H. simpl. destruct (isspace x); [|exact H].
  simpl in H. apply andb_true_iff in H as [_ H]. auto.
Qed.

Lemma free_of_rstrip (c : ascii) (s : string) :
  free_of c s = true -> free_of c (rstrip s) = true.
Proof.
  induction s as [|x s IH]; [reflexivity|].
  simpl. intros [Hx Hs]%andb_true_iff.
  destruct (isspace x && is_empty (rstrip s)); [reflexivity|].
  simpl. now rewrite Hx, IH.
Qed.

Lemma free_of_strip (c : ascii) (s : string) :
  free_of c s = true -> free_of c (strip s) = true.
Proof. intros H. now apply free_of_lstrip, free_of_rstrip. Qed.

(** *** Cutting at a separator *)

Lemma cut_none (sep : ascii) (s h : string) :
  cut sep s = (h, None) <-> s = h /\ free_of sep h = true.
Proof.
  revert h. induction s as [|x s IH]; intros h; simpl.
  - split; [intros [= <-]; now split | intros [<- _]; reflexivity].
  - destruct (Ascii.eqb x sep) eqn:Hx.
    + split; [discriminate|]. intros [<- H]. simpl in H. now rewrite Hx in H.
    + destruct (cut sep s) as [h' t'] eqn:Hcut. split.
      * intros [= <- ->]. destruct (proj1 (IH h') eq_refl) as [-> Hf].
        split; [reflexivity|]. simpl. now rewrite Hx, Hf.
      * intros [<- H]. simpl in H. rewrite Hx in H. simpl in H.
        assert (Hn : (h', t') = (s, None)) by (apply IH; now split).
        now injection Hn as -> ->.
Qed.

Lemma cut_some (sep : ascii) (s h t : string) :
  cut sep s = (h, Some t) <-> s = h ++ String sep t /\ free_of sep h = true.
Proof.
  revert h. induction s as [|x s IH]; intros h; simpl.
  - split; [discriminate|]. intros [H _]. destruct h; discriminate.
  - destruct (Ascii.eqb x sep) eqn:Hx.
    + apply Ascii.eqb_eq in Hx as ->. split.
      * intros [= <- <-]. now split.
      * intros [H Hf]. destruct h as [|y h]; simpl in H.
        -- now injection H as ->.
        -- injection H as <- _. simpl in Hf. now rewrite Ascii.eqb_refl in Hf.
    + destruct (cut sep s) as [h' t'] eqn:Hcut. split.
      * intros [= <- ->]. destruct (proj1 (IH h') eq_refl) as [-> Hf].
        split; [reflexivity|]. simpl. now rewrite Hx, Hf.
      * intros [H Hf]. destruct h as [|y h]; simpl in H.
        -- injection H as -> _. now rewrite Ascii.eqb_refl in Hx.
        -- injection H as <- ->. simpl in Hf. rewrite Hx in Hf. simpl in Hf.
           assert (Hn : (h', t') = (h, Some t)) by (apply IH; now split).
           now injection Hn as -> ->.
Qed.

(** The pieces of a cut contain no character the text did not have. *)
Lemma cut_free_of (c sep : ascii) (s h : string) (t : option string) :
  free_of c s = true -> cut sep s = (h, t) ->
  free_of c h = true /\ forall t', t = Some t' -> free_of c t' = true.
Proof.
  intros Hs Hcut. destruct t as [t|].
  - apply cut_some in Hcut as [-> _].
    rewrite free_of_append in Hs. apply andb_true_iff in Hs as [Hh Ht].
    simpl in Ht. apply andb_true_iff in Ht as [_ Ht].
    split; [exact Hh | now intros t' [= <-]].
  - apply cut_none in Hcut as [-> _]. split; [exact Hs | discriminate].
Qed.

(** *** Splitting with a bound *)

Lemma splitn_nonempty (sep : ascii) (n : nat) (s : string) : splitn sep n s <> [].
Proof.
  destruct n; simpl; [discriminate|].
  destruct (cut sep s) as [h [t|]]; discriminate.
Qed.

Lemma splitn_length (sep : ascii) (n : nat) (s : string) :
  (length (splitn sep n s) <= S n)%nat.
Proof.
  revert s. induction n as [|n IH]; intros s; simpl; [lia|].
  destruct (cut sep s) as [h [t|]]; simpl; [specialize (IH t)|]; lia.
Qed.

Lemma join_cons (sep x : string) (xs : list string) :
  xs <> [] -> join sep (x :: xs) = x ++ sep ++ join sep xs.
Proof. destruct xs; [congruence | reflexivity]. Qed.

(** Joining the pieces with the separator gives the text back: a bounded
    split loses nothing. *)
Lemma join_splitn (sep : ascii) (n : nat) (s : string) :
  join (String sep "") (splitn sep n s) = s.
Proof.
  revert s. induction n as [|n IH]; intros s; simpl; [reflexivity|].
  destruct (cut sep s) as [h [t|]] eqn:Hcut.
  - rewrite join_cons by apply splitn_nonempty.
    rewrite IH. now apply cut_some in Hcut as [-> _].
  - now apply cut_none in Hcut as [-> _].
Qed.

(** Exactly four parts come from exactly the texts of the shape
    [p0:p1:p2:p3] whose first three parts hold no separator. *)
Lemma splitn_four (sep : ascii) (line p0 p1 p2 p3 : string) :
  splitn sep 3 line = [p0; p1; p2; p3] <->
  line = p0 ++ String sep (p1 ++ String sep (p2 ++ String sep p3))
  /\ free_of sep p0 = true /\ free_of sep p1 = true /\ free_of sep p2 = true.
Proof.
  split.
  - simpl. destruct (cut sep line) as [h0 [t0|]] eqn:H0; [|discriminate].
    destruct (cut sep t0) as [h1 [t1|]] eqn:H1; [|discriminate].
    destruct (cut sep t1) as [h2 [t2|]] eqn:H2; [|discriminate].
    intros [= -> -> -> ->].
    apply cut_some in H0 as [-> F0], H1 as [-> F1], H2 as [-> F2]. auto.
  - intros (-> & F0 & F1 & F2). simpl.
    rewrite (proj2 (cut_some sep _ p0 _) (conj eq_refl F0)).
    rewrite (proj2 (cut_some sep _ p1 _) (conj eq_refl F1)).
    now rewrite (proj2 (cut_some sep _ p2 _) (conj eq_refl F2)).
Qed.

(** The parts of a bounded split contain no character the text did not
    have. *)
Lemma splitn_free_of (c sep : ascii) (n : nat) (s : string) :
  free_of c s = true -> Forall (fun part => free_of c part = true) (splitn sep n s).
Proof.
  revert s. induction n as [|n IH]; intros s Hs; simpl.
  - now constructor.
  - destruct (cut sep s) as [h t] eqn:Hcut.
    destruct (cut_free_of c sep s h t Hs Hcut) as [Hh Ht].
    destruct t as [t|]; constructor; auto.
Qed.

(** *** Splitting into lines *)

Lemma split_fields_append (sep : ascii) (w s : string) :
  free_of sep w = true ->
  split_fields sep (w ++ s) = (w ++ fst (split_fields sep s), snd (split_fields sep s)).
Proof.
  induction w as [|x w IH]; simpl.
  - intros _. now destruct (split_fields sep s).
  - intros [Hx Hw]%andb_true_iff. rewrite (IH Hw).
    apply negb_true_iff in Hx. now rewrite Hx.
Qed.

Lemma split_fields_sep (sep : ascii) (s : string) :
  split_fields sep (String sep s)
  = ("", fst (split_fields sep s) :: snd (split_fields sep s)).
Proof. simpl. rewrite Ascii.eqb_refl. now destruct (split_fields sep s). Qed.

Lemma split_fields_free (sep : ascii) (w : string) :
  free_of sep w = true -> split_fields sep w = (w, []).
Proof.
  intros H. rewrite <- (append_nil_r w) at 1.
  rewrite (split_fields_append _ _ _ H). simpl. now rewrite append_nil_r.
Qed.

Lemma split_nonempty (sep : ascii) (s : string) : split sep s <> [].
Proof. unfold split. destruct (split_fields sep s). discriminate. Qed.

(** Every field of a split is free of the separator. *)
Lemma split_free_of (sep : ascii) (s : string) :
  Forall (fun field => free_of sep field = true) (split sep s).
Proof.
  unfold split. induction s as [|x s IH]; simpl.
  - repeat constructor.
  - destruct (split_fields sep s) as [w ws].
    destruct (Ascii.eqb x sep) eqn:Hx.
    + constructor; [reflexivity | exact IH].
    + inversion IH as [|? ? Hw Hws]; subst. constructor; [|exact Hws].
      simpl. now rewrite Hx, Hw.
Qed.

(** Joining the fields with the separator gives the text back. *)
Lemma join_split (sep : ascii) (s : string) : join (String sep "") (split sep s) = s.
Proof.
  unfold split. induction s as [|x s IH]; [reflexivity|].
  cbn [split_fields]. destruct (split_fields sep s) as [w ws].
  destruct (Ascii.eqb x sep) eqn:Hx.
  - apply Ascii.eqb_eq in Hx as ->.
    rewrite join_cons by discriminate. now rewrite IH.
  - destruct ws as [|w' ws].
    + unfold join in *. simpl in *. now subst.
    + rewrite join_cons in * by discriminate. now rewrite <- IH.
Qed.

(** Splitting a join of separator-free fields gives the fields back. *)
Lemma split_join (sep : ascii) (fields : list string) :
  fields <> [] ->
  Forall (fun field => free_of sep field = true) fields ->
  split sep (join (String sep "") fields) = fields.
Proof.
  induction fields as [|x xs IH]; [congruence|].
  intros _ Hall. inversion Hall as [|? ? Hx Hxs]; subst.
  destruct xs as [|y ys].
  - unfold split, join. cbn [String.concat]. now rewrite (split_fields_free _ _ Hx).
  - rewrite join_cons by discriminate.
    unfold split. rewrite (split_fields_append _ _ _ Hx).
    assert (IH' := IH ltac:(discriminate) Hxs). unfold split in IH'.
    change (String sep "" ++ ?j) with (String sep j).
    rewrite split_fields_sep.
    destruct (split_fields sep (join (String sep "") (y :: ys))) as [w ws].
    cbn [fst snd]. now rewrite append_nil_r, IH'.
Qed.

End TextFacts.

(** * Facts about the handler *)

Section HandlerFacts.
Import PyStr.

Variable E : env.

Lemma finally_clause_locals (st : state) :
  fst (finally_clause E st) = fst st.
Proof.
  destruct st as [l w]. unfold finally_clause.
  destruct (temp_file_path l) as [path|]; [|reflexivity].
  destruct (truthy (Some path) && path_exists path w); [|reflexivity].
  now destruct (remove_fault E path).
Qed.

(** The coordinator always ends in a response with status 200. *)
Lemma process_submission_total (code : json) (w : world) :
  exists rep w', process_submission E code w = (Response 200 (ReportBody rep), w').
Proof.
  unfold process_submission.
  destruct (finally_clause E _) as [l w']. eauto.
Qed.

(** The report when the [try] body raises: the variables are those at the
    raise, with the server-error line added to [error]. *)
Lemma process_submission_raise (code : json) (w : world) (e : exn) (st : state) :
  try_body E code (Locals "" "" "" None, w) = (Raise e, st) ->
  fst (process_submission E code w)
  = Response 200 (ReportBody (Report
      (strip (output (fst st)))
      (strip (error (fst st) ++ nl ++ "Server Error during processing: " ++ exn_str e))
      (strip (lint_feedback (fst st))))).
Proof.
  intros H. unfold process_submission. rewrite H.
  pose proof (finally_clause_locals (except_clause e st)) as Hl.
  destruct (finally_clause E (except_clause e st)) as [l w'].
  simpl in Hl. subst l. now destruct st as [l0 w0].
Qed.

(** The report when the [try] body completes. *)
Lemma process_submission_ok (code : json) (w : world) (st : state) :
  try_body E code (Locals "" "" "" None, w) = (Ok tt, st) ->
  fst (process_submission E code w)
  = Response 200 (ReportBody (Report
      (strip (output (fst st))) (strip (error (fst st)))
      (strip (lint_feedback (fst st))))).
Proof.
  intros H. unfold process_submission. rewrite H.
  pose proof (finally_clause_locals st) as Hl.
  destruct (finally_clause E st) as [l w']. simpl in Hl. now subst l.
Qed.

(** When the file is created and written, the [try] body completes and
    leaves the variables that the two runner calls determine. *)
Lemma try_body_completes (code : json) (w : world) (name : string) :
  mkstemp E (fs w) = Ok name ->
  write_error E code = None ->
  try_body E code (Locals "" "" "" None, w)
  = (Ok tt,
     (Locals (output_of (fst (exec_call E name w)))
             (error_of (fst (exec_call E name w)))
             (lint_feedback_of (fst (lint_call E name w)))
             (Some name),
      snd (lint_call E name w))).
Proof.
  intros Hmk Hwr. unfold lint_call, exec_call.
  unfold try_body, bind, NamedTemporaryFile, write_and_close, call_run_subprocess.
  cbn [fs]. rewrite Hmk. cbn [set_locals ret fst snd]. rewrite Hwr.
  cbn [set_locals ret fst snd].
  fold (with_workspace name w).
  destruct (run_subprocess E ["python"; name] (Some EXECUTION_TIMEOUT)
              (with_workspace name w)) as [[[eo ee] rc] w1].
  cbn [fst snd].
  destruct eo as [eo|], ee as [ee|];
    cbv [set_locals ret fst snd set_output set_error set_temp_file_path
         output error lint_feedback temp_file_path];
    destruct (run_subprocess E ["flake8"; name] None w1) as [[[lo le] lrc] w2];
    destruct lo as [[|c lo]|], le as [[|c' le]|];
    cbv [when truthy is_empty negb set_lint_feedback lint_feedback_of
         output_of error_of output error lint_feedback temp_file_path];
    rewrite ?append_nil_r; reflexivity.
Qed.

(** When the file cannot be created, the body raises with every variable
    still at its initial value and the world untouched. *)
Lemma try_body_create_fails (code : json) (w : world) (e : exn) :
  mkstemp E (fs w) = Raise e ->
  try_body E code (Locals "" "" "" None, w) = (Raise e, (Locals "" "" "" None, w)).
Proof.
  intros Hmk. unfold try_body, bind, NamedTemporaryFile. now rewrite Hmk.
Qed.

(** When the write fails, the body raises with the path recorded and the
    file in place. *)
Lemma try_body_write_fails (code : json) (w : world) (name : string) (e : exn) :
  mkstemp E (fs w) = Ok name ->
  write_error E code = Some e ->
  try_body E code (Locals "" "" "" None, w)
  = (Raise e, (Locals "" "" "" (Some name), with_workspace name w)).
Proof.
  intros Hmk Hwr. unfold try_body, bind, NamedTemporaryFile, write_and_close.
  rewrite Hmk. cbn [set_locals ret fst snd]. now rewrite Hwr.
Qed.

(** Nothing else raises: an exception of the body is the one of the file
    creation or the one of the write, and [error] is still empty then. *)
Lemma try_body_raise_inv (code : json) (w : world) (e : exn) (st : state) :
  try_body E code (Locals "" "" "" None, w) = (Raise e, st) ->
  (mkstemp E (fs w) = Raise e /\ st = (Locals "" "" "" None, w))
  \/ (exists name, mkstemp E (fs w) = Ok name /\ write_error E code = Some e
       /\ st = (Locals "" "" "" (Some name), with_workspace name w)).
Proof.
  intros H. destruct (mkstemp E (fs w)) as [name|e'] eqn:Hmk.
  - right. exists name. destruct (write_error E code) as [e'|] eqn:Hwr.
    + rewrite (try_body_write_fails _ _ _ _ Hmk Hwr) in H.
      injection H as -> <-. auto.
    + rewrite (try_body_completes _ _ _ Hmk Hwr) in H. discriminate.
  - left. rewrite (try_body_create_fails _ _ _ Hmk) in H.
    injection H as -> <-. auto.
Qed.

End HandlerFacts.

(** * The runner on the two commands *)

Section RunnerFacts.

Variables (E : env) (name : string) (w : world).


(** A child that ends within the deadline: the runner hands back its
    streams and its return code. *)
Lemma exec_call_exit d out err rc touch :
  spawn E ["python"; name] (fs (with_workspace name w)) = Runs d out err rc touch ->
  (d <= 5000)%N ->
  fst (exec_call E name w) = (Some out, Some err, rc).
Proof.
  intros Hsp Hd. unfold exec_call, run_subprocess, subprocess_run.
  rewrite Hsp. unfold EXECUTION_TIMEOUT.
  destruct (5 * 1000 <? Z.of_N d)%Z eqn:Hlt; [|reflexivity].
  apply Z.ltb_lt in Hlt. lia.
Qed.

(** A command that cannot be started. *)
Lemma exec_call_launch_failure e :
  spawn E ["python"; name] (fs (with_workspace name w)) = CannotLaunch e ->
  is_TimeoutExpired e = false ->
  fst (exec_call E name w)
  = (None, Some ("Error running subprocess: " ++ exn_str e), (-2)%Z).
Proof.
  intros Hsp He. unfold exec_call, run_subprocess, subprocess_run.
  rewrite Hsp. now rewrite He.
Qed.

(** The linter is waited for however long it runs. *)
Lemma lint_call_runs d out err rc touch :
  spawn E ["flake8"; name] (fs (snd (exec_call E name w))) = Runs d out err rc touch ->
  fst (lint_call E name w) = (Some out, Some err, rc).
Proof.
  intros Hsp. unfold lint_call, run_subprocess, subprocess_run. now rewrite Hsp.
Qed.

End RunnerFacts.

(** * Requests that reach the coordinator *)

Section Submission.
Import PyStr.

Variables (E : env) (req : request) (w : world) (data code : json).
Hypothesis Hjson : is_json req = true.
Hypothesis Hdata : get_json req = Ok data.
Hypothesis Hcode : dict_get data "code" = Ok code.
Hypothesis Hsome : is_None code = false.

Lemma execute_python_reaches :
  execute_python E req w = process_submission E code w.
Proof. unfold execute_python. now rewrite Hjson, Hdata, Hcode, Hsome. Qed.

(** The report of a submission whose file was created and written. *)
Lemma report_of_run (name : string) :
  mkstemp E (fs w) = Ok name ->
  write_error E code = None ->
  fst (execute_python E req w)
  = Response 200 (ReportBody (Report
      (strip (output_of (fst (exec_call E name w))))
      (strip (error_of (fst (exec_call E name w))))
      (strip (lint_feedback_of (fst (lint_call E name w)))))).
Proof.
  intros Hmk Hwr. rewrite execute_python_reaches.
  now rewrite (process_submission_ok E _ _ _ (try_body_completes E _ _ _ Hmk Hwr)).
Qed.

(** The report of a submission whose [try] body raised [e]. *)
Lemma report_of_fault (e : exn) (st : state) :
  try_body E code (Locals "" "" "" None, w) = (Raise e, st) ->
  fst (execute_python E req w)
  = Response 200 (ReportBody (Report ""
      ("Server Error during processing:" ++ rstrip (" " ++ exn_str e)) "")).
Proof.
  intros H. rewrite execute_python_reaches.
  rewrite (process_submission_raise E _ _ _ _ H).
  assert (Hst : fst st = Locals "" "" "" (temp_file_path (fst st))).
  { destruct (try_body_raise_inv E _ _ _ _ H) as [[_ ->] | (n & _ & _ & ->)];
      reflexivity. }
  rewrite Hst. cbn [output error lint_feedback].
  change (strip "") with "".
  replace (strip ("" ++ nl ++ "Server Error during processing: " ++ exn_str e))
    with ("Server Error during processing:" ++ rstrip (" " ++ exn_str e));
    [reflexivity|].
  unfold strip.
  change ("" ++ nl ++ "Server Error during processing: " ++ exn_str e)
    with ((nl ++ "Server Error during processing") ++ String ":" (" " ++ exn_str e)).
  now rewrite rstrip_keep by reflexivity.
Qed.

End Submission.

(** * The coordinator never fails outward *)

(** C1. A request that passes both boundary checks (JSON body, [code]
    member not [None]) is always answered with a report and status 200,
    so no exception leaves the handler. Whenever the [try] body raises an
    exception [e], the report's error field is the stripped text of
    [error] followed by the line [Server Error during processing: str(e)];
    since [error] is still empty at any raise, that field is exactly
    [Server Error during processing:], a space and [str(e)], up to the
    final trimming of trailing white space. *)
Theorem C1_report_always_returned
    (E : env) (req : request) (w : world) (data code : json) :
  is_json req = true ->
  get_json req = Ok data ->
  dict_get data "code" = Ok code ->
  is_None code = false ->
  exists rep w',
    execute_python E req w = (Response 200 (ReportBody rep), w')
    /\ forall e st,
         try_body E code (Locals "" "" "" None, w) = (Raise e, st) ->
         rep_error rep
         = PyStr.strip (error (fst st) ++ nl
                        ++ "Server Error during processing: " ++ exn_str e)
         /\ rep_error rep
            = "Server Error during processing:" ++ PyStr.rstrip (" " ++ exn_str e)
         /\ PyStr.contains "Server Error during processing:" (rep_error rep) = true
         /\ (ends_nonspace (exn_str e) ->
             rep_error rep = "Server Error during processing: " ++ exn_str e).
Proof.
  intros Hjson Hdata Hcode Hsome.
  destruct (process_submission_total E code w) as (rep & w' & Hrun).
  exists rep, w'. split.
  - now rewrite (execute_python_reaches E req w data code Hjson Hdata Hcode Hsome).
  - intros e st Hraise.
    pose proof (report_of_fault E req w data code Hjson Hdata Hcode Hsome
                  e st Hraise) as Hrep.
    pose proof (process_submission_raise E code w e st Hraise) as Hgen.
    pose proof (f_equal fst Hrun) as Hfst. simpl in Hfst.
    rewrite (execute_python_reaches E req w data code Hjson Hdata Hcode Hsome),
      Hfst in Hrep.
    rewrite Hfst in Hgen.
    assert (Hrep' : rep = Report ""
              ("Server Error during processing:" ++ PyStr.rstrip (" " ++ exn_str e)) "")
      by congruence.
    split.
    { assert (Hgen' : ReportBody rep = ReportBody (Report
          (PyStr.strip (output (fst st)))
          (PyStr.strip (error (fst st) ++ nl
                        ++ "Server Error during processing: " ++ exn_str e))
          (PyStr.strip (lint_feedback (fst st))))) by congruence.
      assert (Hgen'' := f_equal (fun b => match b with
                                          | ReportBody r => rep_error r
                                          | ErrorBody _ => ""
                                          end) Hgen').
      exact Hgen''. }
    rewrite Hrep'. unfold rep_error.
    split; [reflexivity|]. split.
    + apply contains_spec.
      now exists "", (PyStr.rstrip (" " ++ exn_str e)).
    + intros Hend.
      change ("Server Error during processing: " ++ exn_str e)
        with ("Server Error during processing:" ++ " " ++ exn_str e).
      f_equal. exact (rstrip_ends_nonspace " " _ Hend).
Qed.

Lemma C1_report_always_returned_witness :
  exists rep w',
    execute_python (sample_host quiet quiet) (submission (JInt 5)) empty_world
    = (Response 200 (ReportBody rep), w')
    /\ forall e st,
         try_body (sample_host quiet quiet) (JInt 5) (Locals "" "" "" None, empty_world)
         = (Raise e, st) ->
         rep_error rep
         = PyStr.strip (error (fst st) ++ nl
                        ++ "Server Error during processing: " ++ exn_str e)
         /\ rep_error rep
            = "Server Error during processing:" ++ PyStr.rstrip (" " ++ exn_str e)
         /\ PyStr.contains "Server Error during processing:" (rep_error rep) = true
         /\ (ends_nonspace (exn_str e) ->
             rep_error rep = "Server Error during processing: " ++ exn_str e).
Proof.
  exact (C1_report_always_returned (sample_host quiet quiet) (submission (JInt 5))
           empty_world (JObj [("code", JInt 5)]) (JInt 5)
           eq_refl eq_refl eq_refl eq_refl).
Defined.

(** C10 (as amended). A [code] member that is present, not [None] and not
    text passes the boundary check and is answered with status 200 and an
    error field holding [Server Error during processing:]; once the file
    exists that field is exactly the absorbed [TypeError] of the write. *)
Theorem C10_non_text_code_absorbed
    (E : env) (req : request) (w : world) (data code : json) :
  is_json req = true ->
  get_json req = Ok data ->
  dict_get data "code" = Ok code ->
  is_None code = false ->
  is_str code = false ->
  exists rep,
    fst (execute_python E req w) = Response 200 (ReportBody rep)
    /\ PyStr.contains "Server Error during processing:" (rep_error rep) = true
    /\ (forall name, mkstemp E (fs w) = Ok name ->
        rep_error rep
        = "Server Error during processing: write() argument must be str, not "
          ++ type_name code).
Proof.
  intros Hjson Hdata Hcode Hsome Hstr.
  assert (Hwr : write_error E code
                = Some (Exn TypeError
                          ("write() argument must be str, not " ++ type_name code)))
    by (destruct code; try reflexivity; discriminate).
  assert (Hin : forall d, PyStr.contains "Server Error during processing:"
                  ("Server Error during processing:" ++ PyStr.rstrip (" " ++ d)) = true)
    by (intros d; apply contains_spec; now exists "", (PyStr.rstrip (" " ++ d))).
  destruct (mkstemp E (fs w)) as [name|e] eqn:Hmk.
  - eexists. split; [|split].
    + exact (report_of_fault E req w data code Hjson Hdata Hcode Hsome _ _
               (try_body_write_fails E code w name _ Hmk Hwr)).
    + apply Hin.
    + intros _ _. cbn [rep_error exn_str]. destruct code; try reflexivity; discriminate.
  - eexists. split; [|split].
    + exact (report_of_fault E req w data code Hjson Hdata Hcode Hsome _ _
               (try_body_create_fails E code w e Hmk)).
    + apply Hin.
    + intros name [=].
Qed.

Lemma C10_non_text_code_absorbed_witness :
  exists rep,
    fst (execute_python (sample_host quiet quiet) (submission (JInt 5)) empty_world)
    = Response 200 (ReportBody rep)
    /\ PyStr.contains "Server Error during processing:" (rep_error rep) = true
    /\ (forall name, mkstemp (sample_host quiet quiet) (fs empty_world) = Ok name ->
        rep_error rep
        = "Server Error during processing: write() argument must be str, not "
          ++ type_name (JInt 5)).
Proof.
  exact (C10_non_text_code_absorbed (sample_host quiet quiet) (submission (JInt 5))
           empty_world (JObj [("code", JInt 5)]) (JInt 5)
           eq_refl eq_refl eq_refl eq_refl eq_refl).
Defined.

(** C10 (as stated) fails for a [code] member that is present and holds
    JSON [null]: the member is there, it is not text, and the request is
    rejected with status 400. *)
Lemma C10_null_code_rejected :
  lookup_member "code" [("code", JNull)] = Some JNull
  /\ is_str JNull = false
  /\ execute_python (sample_host quiet quiet) (submission JNull) empty_world
     = (Response 400 (ErrorBody "Missing 'code' field in JSON payload"), empty_world).
Proof. repeat split. Qed.

(** * The request boundary *)


Lemma missing_code_rejected (E : env) (members : list (string * json)) (w : world) :
  lookup_member "code" members = None ->
  execute_python E (Request true (Ok (JObj members))) w
  = (Response 400 (ErrorBody "Missing 'code' field in JSON payload"), w).
Proof. intros H. unfold execute_python. simpl. now rewrite H. Qed.

(** A JSON payload that is not an object has no [get]: the exception
    leaves the handler before either check answers. *)
Lemma non_object_body_propagates (E : env) (data : json) (w : world) :
  (forall members, data <> JObj members) ->
  execute_python E (Request true (Ok data)) w
  = (Propagates (Exn AttributeError
                   ("'" ++ type_name data ++ "' object has no attribute 'get'")), w).
Proof.
  intros H. unfold execute_python. simpl.
  destruct data; try reflexivity. now contradiction (H members).
Qed.

(** C8. The JSON body [[]] lacks a [code] key, yet the handler answers
    with neither of the two 400 bodies: [data.get] raises
    [AttributeError], which leaves the handler. No workspace is created. *)
Theorem C8_array_body_raises :
  execute_python (sample_host quiet quiet) (Request true (Ok (JArr [])))
    empty_world
  = (Propagates (Exn AttributeError "'list' object has no attribute 'get'"),
     empty_world).
Proof. reflexivity. Qed.

(** * How the return code shapes the error field *)

Section ErrorContext.
Import PyStr.


Lemma strip_failure_text (reason : string) :
  strip ("Execution Error: Failed to run subprocess. Error running subprocess: "
         ++ reason)
  = "Execution Error: Failed to run subprocess. Error running subprocess:"
    ++ rstrip (" " ++ reason).
Proof.
  unfold strip.
  change ("Execution Error: Failed to run subprocess. Error running subprocess: "
          ++ reason)
    with ("Execution Error: Failed to run subprocess. Error running subprocess"
          ++ String ":" (" " ++ reason)).
  now rewrite rstrip_keep by reflexivity.
Qed.

Lemma rstrip_runner_reason (detail : string) :
  rstrip ("Error running subprocess: " ++ detail)
  = "Error running subprocess:" ++ rstrip (" " ++ detail).
Proof.
  change ("Error running subprocess: " ++ detail)
    with ("Error running subprocess" ++ String ":" (" " ++ detail)).
  now rewrite rstrip_keep by reflexivity.
Qed.

(** A return code other than [0], [-1] and [-2]: the exit sentence is
    put in front unless the text already holds it. *)
Lemma add_error_context_exit (return_code : Z) (err : string) :
  return_code <> 0%Z -> return_code <> (-1)%Z -> return_code <> (-2)%Z ->
  strip (add_error_context return_code err)
  = if contains (exit_sentence return_code) err
    then strip err
    else exit_sentence return_code ++ rstrip (" " ++ err).
Proof.
  intros H0 H1 H2. unfold add_error_context.
  rewrite (proj2 (Z.eqb_neq _ _) H1), (proj2 (Z.eqb_neq _ _) H2),
          (proj2 (Z.eqb_neq _ _) H0).
  cbn [negb]. fold (exit_sentence return_code).
  destruct (contains (exit_sentence return_code) err); cbn [negb]; [reflexivity|].
  rewrite strip_idem. unfold strip, exit_sentence.
  replace (("Process exited with status code " ++ of_int return_code ++ ".")
           ++ " " ++ err)
    with (("Process exited with status code " ++ of_int return_code)
          ++ String "." (" " ++ err))
    by (now rewrite !append_assoc).
  rewrite rstrip_keep by reflexivity.
  rewrite !append_assoc. reflexivity.
Qed.

End ErrorContext.




(** C5. When the interpreter cannot be started, the report has no output
    and its error field is [Execution Error: Failed to run subprocess.]
    followed by the runner's reason, [Error running subprocess: str(e)]
    (trailing white space trimmed, as for every field). *)
Theorem C5_launch_failure_report
    (E : env) (req : request) (w : world) (data code : json) (name : string) (e : exn) :
  is_json req = true ->
  get_json req = Ok data ->
  dict_get data "code" = Ok code ->
  is_None code = false ->
  mkstemp E (fs w) = Ok name ->
  write_error E code = None ->
  spawn E ["python"; name] (fs (with_workspace name w)) = CannotLaunch e ->
  is_TimeoutExpired e = false ->
  exists reason err lint,
    fst (exec_call E name w) = (None, Some reason, (-2)%Z)
    /\ reason = "Error running subprocess: " ++ exn_str e
    /\ fst (execute_python E req w) = Response 200 (ReportBody (Report "" err lint))
    /\ err = PyStr.strip ("Execution Error: Failed to run subprocess. " ++ reason)
    /\ err = "Execution Error: Failed to run subprocess. " ++ PyStr.rstrip reason
    /\ (ends_nonspace (exn_str e) ->
        err = "Execution Error: Failed to run subprocess. " ++ reason).
Proof.
  intros Hjson Hdata Hcode Hsome Hmk Hwr Hsp He.
  pose proof (exec_call_launch_failure E name w e Hsp He) as Hex.
  exists ("Error running subprocess: " ++ exn_str e).
  exists (PyStr.strip ("Execution Error: Failed to run subprocess. "
                       ++ "Error running subprocess: " ++ exn_str e)).
  eexists. split; [exact Hex|]. split; [reflexivity|]. split; [|split; [|split]].
  - rewrite (report_of_run E req w data code Hjson Hdata Hcode Hsome name Hmk Hwr), Hex.
    unfold error_of, add_error_context. cbn [Z.eqb Pos.eqb output_of].
    now rewrite strip_idem.
  - reflexivity.
  - rewrite rstrip_runner_reason. apply strip_failure_text.
  - intros Hend. etransitivity; [apply strip_failure_text|].
    now rewrite (rstrip_ends_nonspace " " _ Hend).
Qed.

Lemma C5_launch_failure_report_witness :
  exists reason err lint,
    fst (exec_call
           (sample_host (CannotLaunch (Exn OSError "[Errno 2] No such file or directory"))
                        quiet)
           "/tmp/tmpk3v9.py" empty_world)
    = (None, Some reason, (-2)%Z)
    /\ reason = "Error running subprocess: [Errno 2] No such file or directory"
    /\ fst (execute_python
              (sample_host (CannotLaunch (Exn OSError "[Errno 2] No such file or directory"))
                           quiet)
              (submission (JStr "print(1)")) empty_world)
       = Response 200 (ReportBody (Report "" err lint))
    /\ err = PyStr.strip ("Execution Error: Failed to run subprocess. " ++ reason)
    /\ err = "Execution Error: Failed to run subprocess. " ++ PyStr.rstrip reason
    /\ (ends_nonspace "[Errno 2] No such file or directory" ->
        err = "Execution Error: Failed to run subprocess. " ++ reason).
Proof.
  exact (C5_launch_failure_report
           (sample_host (CannotLaunch (Exn OSError "[Errno 2] No such file or directory"))
                        quiet)
           (submission (JStr "print(1)")) empty_world
           (JObj [("code", JStr "print(1)")]) (JStr "print(1)")
           "/tmp/tmpk3v9.py" (Exn OSError "[Errno 2] No such file or directory")
           eq_refl eq_refl eq_refl eq_refl eq_refl eq_refl eq_refl eq_refl).
Defined.

(** * Return codes that collide with the runner's own *)

(** At the level of the runner the three endings are told apart: only a
    completed child has an output text, and the other two differ in the
    code. *)
Lemma run_subprocess_shape (E : env) (command : list string) (timeout : option Z)
    (w : world) :
  (exists out err rc,
     fst (run_subprocess E command timeout w) = (Some out, Some err, rc))
  \/ (exists text, fst (run_subprocess E command timeout w) = (None, Some text, (-1)%Z))
  \/ (exists text, fst (run_subprocess E command timeout w) = (None, Some text, (-2)%Z)).
Proof.
  unfold run_subprocess.
  destruct (subprocess_run E command timeout w) as [[r|e] w'].
  - left. now exists (cp_stdout r), (cp_stderr r), (cp_returncode r).
  - destruct (is_TimeoutExpired e); [right; left | right; right]; eauto.
Qed.

(** The coordinator looks at the code alone, so a completed child whose
    code is [-1] is reported with the timeout text. *)
Lemma error_of_minus_one (out err : string) :
  error_of (Some out, Some err, (-1)%Z)
  = PyStr.strip ("Timeout Error: Execution exceeded 5 seconds. " ++ err).
Proof. reflexivity. Qed.

Lemma error_of_minus_two (out err : string) :
  error_of (Some out, Some err, (-2)%Z)
  = PyStr.strip ("Execution Error: Failed to run subprocess. " ++ err).
Proof. reflexivity. Qed.

(** C2. An interpreter that is ended by signal 1 after 40 ms has return
    code [-1]. The runner hands the code back with the captured streams,
    and the coordinator reports the run as a timeout: the status of a
    completed process is not kept apart from the runner's own codes. *)
Theorem C2_signal_exit_reported_as_timeout :
  fst (exec_call (sample_host (Runs 40 "" "" (-1) (fun files => files)) quiet)
         "/tmp/tmpk3v9.py" empty_world)
  = (Some "", Some "", (-1)%Z)
  /\ fst (execute_python
            (sample_host (Runs 40 "" "" (-1) (fun files => files)) quiet)
            (submission (JStr "import os; os.kill(os.getpid(), 1)")) empty_world)
     = Response 200 (ReportBody
         (Report "" "Timeout Error: Execution exceeded 5 seconds." "")).
Proof. split; vm_compute; reflexivity. Qed.

(** C4. The same interpreter, having written to its error stream before
    signal 1 ends it: the process ended with a non-zero code, the stream
    does not hold the exit sentence, and yet the error field does not
    begin with [Process exited with status code -1.]. *)
Theorem C4_exit_minus_one_loses_prefix :
  exit_sentence (-1) = "Process exited with status code -1."
  /\ PyStr.contains (exit_sentence (-1)) "closing down" = false
  /\ fst (execute_python
            (sample_host (Runs 40 "" "closing down" (-1) (fun files => files)) quiet)
            (submission (JStr "import os; os.kill(os.getpid(), 1)")) empty_world)
     = Response 200 (ReportBody
         (Report "" "Timeout Error: Execution exceeded 5 seconds. closing down" ""))
  /\ PyStr.startswith (exit_sentence (-1))
       "Timeout Error: Execution exceeded 5 seconds. closing down" = false.
Proof. repeat split; vm_compute; reflexivity. Qed.

(** For every other non-zero return code the error field is as C4 says. *)
Lemma exit_code_report
    (E : env) (req : request) (w : world) (data code : json) (name : string)
    (d : N) (out err : string) (rc : Z) (touch : gset string -> gset string) :
  is_json req = true ->
  get_json req = Ok data ->
  dict_get data "code" = Ok code ->
  is_None code = false ->
  mkstemp E (fs w) = Ok name ->
  write_error E code = None ->
  spawn E ["python"; name] (fs (with_workspace name w)) = Runs d out err rc touch ->
  (d <= 5000)%N ->
  rc <> 0%Z -> rc <> (-1)%Z -> rc <> (-2)%Z ->
  exists lint,
    fst (execute_python E req w)
    = Response 200 (ReportBody (Report (PyStr.strip out)
        (if PyStr.contains (exit_sentence rc) err
         then PyStr.strip err
         else exit_sentence rc ++ PyStr.rstrip (" " ++ err))
        lint)).
Proof.
  intros Hjson Hdata Hcode Hsome Hmk Hwr Hsp Hd H0 H1 H2.
  rewrite (report_of_run E req w data code Hjson Hdata Hcode Hsome name Hmk Hwr).
  rewrite (exec_call_exit E name w d out err rc touch Hsp Hd).
  unfold error_of, output_of.
  rewrite (add_error_context_exit rc err H0 H1 H2). eexists. reflexivity.
Qed.

(** * The lint pass *)

Section LintFacts.
Import PyStr.

(** The section added for the linter's error stream always opens with
    its header: the leading line feed of line 118 is stripped away. *)
Lemma flake8_error_section_header (lint_stderr : string) :
  flake8_error_section lint_stderr
  = "--- Flake8 Error ---" ++ rstrip (nl ++ lint_stderr).
Proof.
  unfold flake8_error_section, strip.
  change (nl ++ "--- Flake8 Error ---" ++ nl ++ lint_stderr)
    with ((nl ++ "--- Flake8 Error --") ++ String "-" (nl ++ lint_stderr)).
  now rewrite rstrip_keep by reflexivity.
Qed.

Lemma strip_holds_header (before after : string) :
  contains "--- Flake8 Error ---"
    (strip (before ++ "--- Flake8 Error ---" ++ after)) = true.
Proof.
  change (before ++ "--- Flake8 Error ---" ++ after)
    with (before ++ String "-" ("-- Flake8 Error --" ++ String "-" after)).
  destruct (strip_keep before "-" "-- Flake8 Error --" "-" after eq_refl eq_refl)
    as [a' ->].
  apply contains_spec. now exists a', (rstrip after).
Qed.

End LintFacts.

(** The linter is run without a deadline: however long it runs and
    whatever its return code, the runner hands back its two streams. The
    lint field is then a function of those streams alone: the formatted
    diagnostics of a non-empty output, followed, for a non-empty error
    stream, by a section that opens with [--- Flake8 Error ---]. The
    error field is the one the execution produced; the linter adds
    nothing to it. *)
Lemma lint_pass_report
    (E : env) (req : request) (w : world) (data code : json) (name : string)
    (d : N) (out err : string) (rc : Z) (touch : gset string -> gset string) :
  is_json req = true ->
  get_json req = Ok data ->
  dict_get data "code" = Ok code ->
  is_None code = false ->
  mkstemp E (fs w) = Ok name ->
  write_error E code = None ->
  spawn E ["flake8"; name] (fs (snd (exec_call E name w))) = Runs d out err rc touch ->
  fst (lint_call E name w) = (Some out, Some err, rc)
  /\ exists lint,
       fst (execute_python E req w)
       = Response 200 (ReportBody (Report
           (PyStr.strip (output_of (fst (exec_call E name w))))
           (PyStr.strip (error_of (fst (exec_call E name w))))
           lint))
       /\ lint
          = PyStr.strip
              ((if PyStr.is_empty out then "" else format_lint_output out)
               ++ (if PyStr.is_empty err then ""
                   else "--- Flake8 Error ---" ++ PyStr.rstrip (nl ++ err)))
       /\ (PyStr.is_empty err = false ->
           PyStr.contains "--- Flake8 Error ---" lint = true).
Proof.
  intros Hjson Hdata Hcode Hsome Hmk Hwr Hsp.
  pose proof (lint_call_runs E name w d out err rc touch Hsp) as Hlint.
  split; [exact Hlint|]. eexists. split; [|split].
  - rewrite (report_of_run E req w data code Hjson Hdata Hcode Hsome name Hmk Hwr), Hlint.
    reflexivity.
  - unfold lint_feedback_of. now rewrite flake8_error_section_header.
  - intros Herr. unfold lint_feedback_of. rewrite Herr.
    rewrite flake8_error_section_header. apply strip_holds_header.
Qed.

(** C9. A linter that reports one finding and also writes to its error
    stream: the header of the error section comes right after the
    finding, on the same line. The line feed that line 118 puts before
    the header is taken away again by the [strip()] applied to the
    formatted text, so the section is not set apart from the
    diagnostics. *)
Theorem C9_header_glued_to_last_diagnostic :
  fst (execute_python (sample_host quiet slow_flake8)
         (submission (JStr "x=1")) empty_world)
  = Response 200 (ReportBody (Report "" ""
      ("L1:2: E225 missing whitespace--- Flake8 Error ---" ++ nl ++ "boom")))
  /\ PyStr.split LF
       ("L1:2: E225 missing whitespace--- Flake8 Error ---" ++ nl ++ "boom")
     = ["L1:2: E225 missing whitespace--- Flake8 Error ---"; "boom"]
  /\ flake8_error_section "boom" = "--- Flake8 Error ---" ++ nl ++ "boom".
Proof. repeat split; vm_compute; reflexivity. Qed.

(** * The diagnostic formatter *)

Section FormatterFacts.
Import PyStr.

Lemma format_line_four (line p0 p1 p2 p3 : string) :
  splitn ":" 3 line = [p0; p1; p2; p3] ->
  format_line line = "L" ++ p1 ++ ":" ++ p2 ++ ": " ++ strip p3.
Proof. intros H. unfold format_line. now rewrite H. Qed.

Lemma format_line_other (line : string) :
  length (splitn ":" 3 line) <> 4%nat -> format_line line = line.
Proof.
  intros H. unfold format_line.
  destruct (splitn ":" 3 line) as [|a [|b [|c [|d [|e l]]]]]; try reflexivity.
  now contradiction H.
Qed.

(** A formatted line holds a line feed only if the line did. *)
Lemma format_line_free_of_LF (line : string) :
  free_of LF line = true -> free_of LF (format_line line) = true.
Proof.
  intros Hfree. unfold format_line.
  pose proof (splitn_free_of LF ":" 3 line Hfree) as Hall.
  destruct (splitn ":" 3 line) as [|a [|b [|c [|d [|e l]]]]]; try exact Hfree.
  inversion Hall as [|? ? _ Hall1]; subst.
  inversion Hall1 as [|? ? Hb Hall2]; subst.
  inversion Hall2 as [|? ? Hc Hall3]; subst.
  inversion Hall3 as [|? ? Hd _]; subst.
  rewrite !free_of_append, Hb, Hc, (free_of_strip _ _ Hd). reflexivity.
Qed.

(** The lines of the formatter's result are the formatted lines of its
    (stripped) input, one for one and in order. *)
Lemma format_lint_output_lines (lint_stdout : string) :
  split LF (format_lint_output lint_stdout)
  = map format_line (split LF (strip lint_stdout)).
Proof.
  unfold format_lint_output, nl. apply (split_join LF).
  - pose proof (split_nonempty LF (strip lint_stdout)) as Hne.
    destruct (split LF (strip lint_stdout)); [congruence | discriminate].
  - pose proof (split_free_of LF (strip lint_stdout)) as Hall.
    induction Hall as [|line lines Hline _ IH]; constructor.
    + now apply format_line_free_of_LF.
    + exact IH.
Qed.

End FormatterFacts.

(** C7 (as amended). The formatter is a function of the linter's output
    alone. It first trims white space, blank lines included, from the two
    ends of the whole output. Of what is left, a line that splits on [:]
    (at most three cuts) into exactly four parts, that is a line of the
    shape [p0:p1:p2:p3] with no [:] in [p0], [p1], [p2], gives [L p1 : p2 : ]
    and the trimmed [p3], without [p0]; every other line is given back
    unchanged. The trimmed output is the join of its lines, and the
    result is the join of these lines formatted, one for each line of the
    trimmed output and in the same order. *)
Theorem C7_diagnostic_formatter :
  (forall line p0 p1 p2 p3 : string,
     PyStr.splitn ":" 3 line = [p0; p1; p2; p3] <->
     line = p0 ++ ":" ++ p1 ++ ":" ++ p2 ++ ":" ++ p3
     /\ PyStr.free_of ":" p0 = true /\ PyStr.free_of ":" p1 = true
     /\ PyStr.free_of ":" p2 = true)
  /\ (forall line p0 p1 p2 p3 : string,
        PyStr.splitn ":" 3 line = [p0; p1; p2; p3] ->
        format_line line = "L" ++ p1 ++ ":" ++ p2 ++ ": " ++ PyStr.strip p3)
  /\ (forall line : string,
        length (PyStr.splitn ":" 3 line) <> 4%nat -> format_line line = line)
  /\ (forall lint_stdout : string,
        format_lint_output lint_stdout = format_lint_output (PyStr.strip lint_stdout))
  /\ (forall lint_stdout : string,
        PyStr.split LF (PyStr.strip lint_stdout) <> []
        /\ Forall (fun line => PyStr.free_of LF line = true)
             (PyStr.split LF (PyStr.strip lint_stdout))
        /\ PyStr.join nl (PyStr.split LF (PyStr.strip lint_stdout))
           = PyStr.strip lint_stdout)
  /\ (forall lines : list string,
        lines <> [] ->
        Forall (fun line => PyStr.free_of LF line = true) lines ->
        PyStr.strip (PyStr.join nl lines) = PyStr.join nl lines ->
        format_lint_output (PyStr.join nl lines)
        = PyStr.join nl (map format_line lines)
        /\ PyStr.split LF (format_lint_output (PyStr.join nl lines))
           = map format_line lines).
Proof.
  split; [|split; [|split; [|split; [|split]]]].
  - intros line p0 p1 p2 p3. apply splitn_four.
  - apply format_line_four.
  - apply format_line_other.
  - intros lint_stdout. unfold format_lint_output. now rewrite strip_idem.
  - intros lint_stdout. split; [apply split_nonempty|].
    split; [apply split_free_of | apply join_split].
  - intros lines Hne Hfree Htrim.
    assert (Hlines : PyStr.split LF (PyStr.strip (PyStr.join nl lines)) = lines).
    { rewrite Htrim. unfold nl. now apply split_join. }
    split.
    + unfold format_lint_output. now rewrite Hlines.
    + now rewrite format_lint_output_lines, Hlines.
Qed.

Lemma C7_diagnostic_formatter_witness :
  format_lint_output
    (PyStr.join nl
       ["/tmp/tmpk3v9.py:1:2: E225 missing whitespace around operator";
        "1 error, see above";
        "/tmp/tmpk3v9.py:3:1: W391 blank line at end of file"])
  = PyStr.join nl
      (map format_line
         ["/tmp/tmpk3v9.py:1:2: E225 missing whitespace around operator";
          "1 error, see above";
          "/tmp/tmpk3v9.py:3:1: W391 blank line at end of file"])
  /\ PyStr.split LF
       (format_lint_output
          (PyStr.join nl
             ["/tmp/tmpk3v9.py:1:2: E225 missing whitespace around operator";
              "1 error, see above";
              "/tmp/tmpk3v9.py:3:1: W391 blank line at end of file"]))
     = ["L1:2: E225 missing whitespace around operator";
        "1 error, see above";
        "L3:1: W391 blank line at end of file"].
Proof.
  apply (proj2 (proj2 (proj2 (proj2 (proj2 C7_diagnostic_formatter))))
           ["/tmp/tmpk3v9.py:1:2: E225 missing whitespace around operator";
            "1 error, see above";
            "/tmp/tmpk3v9.py:3:1: W391 blank line at end of file"]).
  - discriminate.
  - repeat constructor.
  - reflexivity.
Defined.

(** C7 (as stated) fails at the two ends of the raw output: a line of no
    diagnostic shape that opens and closes the output is not given back
    unchanged, it loses its outer white space; and blank lines before and
    after the text are dropped, five raw lines giving one. *)
Lemma C7_edge_whitespace_counterexample :
  (PyStr.split LF "   no colon here   " = ["   no colon here   "]
   /\ PyStr.splitn ":" 3 "   no colon here   " = ["   no colon here   "]
   /\ format_lint_output "   no colon here   " = "no colon here")
  /\ (PyStr.split LF (nl ++ nl ++ "no colon here" ++ nl ++ nl)
      = [""; ""; "no colon here"; ""; ""]
      /\ PyStr.split LF
           (format_lint_output (nl ++ nl ++ "no colon here" ++ nl ++ nl))
         = ["no colon here"]).
Proof. repeat split. Qed.

(** * The workspace *)

Section WorkspaceFacts.

Variable E : env.

(** The runner changes the file namespace only through the child; the
    handler's own trace is untouched. *)
Lemma run_subprocess_trace (command : list string) (timeout : option Z) (w : world) :
  trace (snd (run_subprocess E command timeout w)) = trace w.
Proof.
  unfold run_subprocess, subprocess_run.
  destruct (spawn E command (fs w)) as [e|d out err rc touch|d detail touch].
  - now destruct (is_TimeoutExpired e).
  - destruct timeout as [t|]; [|reflexivity].
    now destruct (t * 1000 <? Z.of_N d)%Z.
  - destruct timeout as [t|]; [|reflexivity].
    now destruct (t * 1000 <? Z.of_N d)%Z.
Qed.

(** What the [finally] clause does to the world when a path is recorded:
    it creates nothing, and unless the removal fails (then it prints the
    warning) the path is gone afterwards. *)
Lemma finally_clause_world (l : locals) (w : world) (name : string) :
  temp_file_path l = Some name ->
  exists events,
    trace (snd (finally_clause E (l, w))) = (events ++ trace w)%list
    /\ created_paths events = []
    /\ (name <> "" ->
        ((name ∉ fs (snd (finally_clause E (l, w)))) /\ printed_lines events = [])
        \/ exists e, remove_fault E name = Some e
                     /\ printed_lines events = [removal_warning name e]
                     /\ removed_paths events = []).
Proof.
  intros Hpath. unfold finally_clause. rewrite Hpath.
  destruct (PyStr.truthy (Some name) && path_exists name w) eqn:Hguard.
  - destruct (remove_fault E name) as [e|] eqn:Hrm.
    + exists [Printed (removal_warning name e)]. repeat split.
      intros _. right. now exists e.
    + exists [Removed name]. repeat split.
      intros _. left. split; [|reflexivity]. cbn [snd fs].
      rewrite elem_of_difference, elem_of_singleton. tauto.
  - exists []. repeat split. intros Hne. left. split; [|reflexivity].
    cbn [snd]. apply andb_false_iff in Hguard as [Ht | Hex].
    + destruct name; [congruence | discriminate].
    + unfold path_exists in Hex. now apply bool_decide_eq_false in Hex.
Qed.

Lemma finally_clause_no_path (l : locals) (w : world) :
  temp_file_path l = None -> finally_clause E (l, w) = (l, w).
Proof. intros H. unfold finally_clause. now rewrite H. Qed.

(** The response is decided before the [finally] clause runs. *)
Lemma process_submission_response (code : json) (w : world) :
  fst (process_submission E code w)
  = match try_body E code (Locals "" "" "" None, w) with
    | (Ok _, st) =>
        Response 200 (ReportBody (Report
          (PyStr.strip (output (fst st))) (PyStr.strip (error (fst st)))
          (PyStr.strip (lint_feedback (fst st)))))
    | (Raise e, st) =>
        Response 200 (ReportBody (Report
          (PyStr.strip (output (fst st)))
          (PyStr.strip (error (fst st) ++ nl
                        ++ "Server Error during processing: " ++ exn_str e))
          (PyStr.strip (lint_feedback (fst st)))))
    end.
Proof.
  destruct (try_body E code (Locals "" "" "" None, w)) as [[[]|e] st] eqn:Hbody.
  - exact (process_submission_ok E code w st Hbody).
  - exact (process_submission_raise E code w e st Hbody).
Qed.

End WorkspaceFacts.

(** The [try] body never consults [os.remove]. *)
Lemma try_body_same_but_remove (E E' : env) (code : json) (st : state) :
  same_but_remove E E' -> try_body E code st = try_body E' code st.
Proof.
  destruct E as [mk wf sp rm], E' as [mk' wf' sp' rm'].
  unfold same_but_remove. cbn [mkstemp write_fault spawn].
  intros (<- & <- & <-). reflexivity.
Qed.

Lemma process_submission_world (E : env) (code : json) (w : world) :
  snd (process_submission E code w)
  = snd (finally_clause E
           match try_body E code (Locals "" "" "" None, w) with
           | (Ok _, st) => st
           | (Raise e, st) => except_clause e st
           end).
Proof.
  unfold process_submission.
  now destruct (finally_clause E _) as [l w'].
Qed.

(** The state the [finally] clause starts from once the file exists: the
    path is recorded, and the trace shows one creation since the call
    began. *)
Lemma before_finally (E : env) (code : json) (w : world) (name : string) :
  mkstemp E (fs w) = Ok name ->
  exists l w1,
    match try_body E code (Locals "" "" "" None, w) with
    | (Ok _, st) => st
    | (Raise e, st) => except_clause e st
    end = (l, w1)
    /\ temp_file_path l = Some name
    /\ trace w1 = Created name :: trace w.
Proof.
  intros Hmk. destruct (write_error E code) as [e|] eqn:Hwr.
  - rewrite (try_body_write_fails E code w name e Hmk Hwr).
    eexists _, _. split; [reflexivity|]. now split.
  - rewrite (try_body_completes E code w name Hmk Hwr).
    eexists _, _. split; [reflexivity|]. split; [reflexivity|].
    unfold lint_call, exec_call. now rewrite !run_subprocess_trace.
Qed.

(** C6 (as amended). For a request that reaches the coordinator, at most
    one workspace is created: none when the creation itself fails, else
    exactly one. When one was created, then by the time the call returns
    it is gone, or its removal failed and the only trace of that is one
    warning printed on the server. The response is the same whatever
    [os.remove] does. *)
Theorem C6_workspace_lifecycle
    (E : env) (req : request) (w : world) (data code : json) :
  is_json req = true ->
  get_json req = Ok data ->
  dict_get data "code" = Ok code ->
  is_None code = false ->
  (exists events,
     trace (snd (execute_python E req w)) = (events ++ trace w)%list
     /\ match mkstemp E (fs w) with
        | Raise _ =>
            events = [] /\ fs (snd (execute_python E req w)) = fs w
        | Ok name =>
            created_paths events = [name]
            /\ (name <> "" ->
                ((name ∉ fs (snd (execute_python E req w)))
                 /\ printed_lines events = [])
                \/ exists e, remove_fault E name = Some e
                             /\ printed_lines events = [removal_warning name e])
        end)
  /\ forall E', same_but_remove E E' ->
       fst (execute_python E' req w) = fst (execute_python E req w).
Proof.
  intros Hjson Hdata Hcode Hsome. split.
  - rewrite (execute_python_reaches E req w data code Hjson Hdata Hcode Hsome).
    rewrite process_submission_world.
    destruct (mkstemp E (fs w)) as [name|e] eqn:Hmk.
    + destruct (before_finally E code w name Hmk) as (l & w1 & -> & Hpath & Htrace).
      destruct (finally_clause_world E l w1 name Hpath)
        as (events & Hev & Hcreated & Hgone).
      exists (events ++ [Created name])%list. split; [|split].
      * rewrite Hev, Htrace. now rewrite <- app_assoc.
      * unfold created_paths in *. rewrite flat_map_app, Hcreated. reflexivity.
      * intros Hne. destruct (Hgone Hne) as [[Hout Hpr] | (e & Hrm & Hpr & _)].
        -- left. split; [exact Hout|].
           unfold printed_lines in *. rewrite flat_map_app, Hpr. reflexivity.
        -- right. exists e. split; [exact Hrm|].
           unfold printed_lines in *. rewrite flat_map_app, Hpr. reflexivity.
    + rewrite (try_body_create_fails E code w e Hmk).
      unfold except_clause. rewrite finally_clause_no_path by reflexivity.
      exists []. repeat split.
  - intros E' Hsame.
    rewrite (execute_python_reaches E req w data code Hjson Hdata Hcode Hsome).
    rewrite (execute_python_reaches E' req w data code Hjson Hdata Hcode Hsome).
    rewrite !process_submission_response.
    now rewrite (try_body_same_but_remove E E' code _ Hsame).
Qed.

Lemma C6_workspace_lifecycle_witness :
  (exists events,
     trace (snd (execute_python (sample_host quiet quiet)
                   (submission (JStr "print(1)")) empty_world))
     = (events ++ trace empty_world)%list
     /\ match mkstemp (sample_host quiet quiet) (fs empty_world) with
        | Raise _ =>
            events = []
            /\ fs (snd (execute_python (sample_host quiet quiet)
                          (submission (JStr "print(1)")) empty_world))
               = fs empty_world
        | Ok name =>
            created_paths events = [name]
            /\ (name <> "" ->
                ((name ∉ fs (snd (execute_python (sample_host quiet quiet)
                                    (submission (JStr "print(1)")) empty_world)))
                 /\ printed_lines events = [])
                \/ exists e, remove_fault (sample_host quiet quiet) name = Some e
                             /\ printed_lines events = [removal_warning name e])
        end)
  /\ forall E', same_but_remove (sample_host quiet quiet) E' ->
       fst (execute_python E' (submission (JStr "print(1)")) empty_world)
       = fst (execute_python (sample_host quiet quiet)
                (submission (JStr "print(1)")) empty_world).
Proof.
  exact (C6_workspace_lifecycle (sample_host quiet quiet)
           (submission (JStr "print(1)")) empty_world
           (JObj [("code", JStr "print(1)")]) (JStr "print(1)")
           eq_refl eq_refl eq_refl eq_refl).
Defined.

(** C6 (as stated) fails: on a host where the temporary file cannot be
    created, the request reaches the coordinator and is answered, and no
    workspace was created at all. *)
Lemma C6_no_workspace_counterexample :
  fst (execute_python full_disk_host (submission (JStr "print(1)")) empty_world)
  = Response 200 (ReportBody (Report ""
      "Server Error during processing: [Errno 28] No space left on device" ""))
  /\ created_paths
       (trace (snd (execute_python full_disk_host
                      (submission (JStr "print(1)")) empty_world)))
     = [].
Proof. split; vm_compute; reflexivity. Qed.

(** * Further properties of the two functions *)

(** ** Reports of completed runs *)

(** X1. A submission whose run is complete within the deadline (the
    child has ended with return code 0 and its captured streams, which
    decode to [out] and [err], are closed) is reported with its trimmed
    output and its trimmed error stream: no sentence is put in front of
    what the program wrote. *)
Theorem clean_exit_report
    (E : env) (req : request) (w : world) (data code : json) (name : string)
    (d : N) (out err : string) (touch : gset string -> gset string) :
  is_json req = true ->
  get_json req = Ok data ->
  dict_get data "code" = Ok code ->
  is_None code = false ->
  mkstemp E (fs w) = Ok name ->
  write_error E code = None ->
  spawn E ["python"; name] (fs (with_workspace name w)) = Runs d out err 0 touch ->
  (d <= 5000)%N ->
  exists lint,
    fst (execute_python E req w)
    = Response 200 (ReportBody (Report (PyStr.strip out) (PyStr.strip err) lint)).
Proof.
  intros Hjson Hdata Hcode Hsome Hmk Hwr Hsp Hd.
  rewrite (report_of_run E req w data code Hjson Hdata Hcode Hsome name Hmk Hwr).
  rewrite (exec_call_exit E name w d out err 0 touch Hsp Hd).
  eexists. reflexivity.
Qed.

Lemma clean_exit_report_witness :
  exists lint,
    fst (execute_python
           (sample_host (Runs 40 "42 " " DeprecationWarning: old" 0 (fun files => files))
                        quiet)
           (submission (JStr "print(42)")) empty_world)
    = Response 200 (ReportBody
        (Report (PyStr.strip "42 ") (PyStr.strip " DeprecationWarning: old") lint)).
Proof.
  apply (clean_exit_report
           (sample_host (Runs 40 "42 " " DeprecationWarning: old" 0 (fun files => files))
                        quiet)
           (submission (JStr "print(42)")) empty_world
           (JObj [("code", JStr "print(42)")]) (JStr "print(42)")
           "/tmp/tmpk3v9.py" 40 "42 " " DeprecationWarning: old" (fun files => files));
    solve [reflexivity | lia].
Defined.

(** X2. A submission whose run is complete within the deadline (streams
    closed and decoded to [out] and [err]) with a return code other than
    [0], [-1] and [-2]: the output is kept, and the error field is the
    exit sentence for that code followed by the error stream, trimmed on
    the right. Only when the stream already holds that very sentence is
    the field the trimmed stream alone. *)
Theorem nonzero_exit_report
    (E : env) (req : request) (w : world) (data code : json) (name : string)
    (d : N) (out err : string) (rc : Z) (touch : gset string -> gset string) :
  is_json req = true ->
  get_json req = Ok data ->
  dict_get data "code" = Ok code ->
  is_None code = false ->
  mkstemp E (fs w) = Ok name ->
  write_error E code = None ->
  spawn E ["python"; name] (fs (with_workspace name w)) = Runs d out err rc touch ->
  (d <= 5000)%N ->
  rc <> 0%Z -> rc <> (-1)%Z -> rc <> (-2)%Z ->
  exists error_field lint,
    fst (execute_python E req w)
    = Response 200 (ReportBody (Report (PyStr.strip out) error_field lint))
    /\ (PyStr.contains (exit_sentence rc) err = false ->
        error_field = exit_sentence rc ++ PyStr.rstrip (" " ++ err)
        /\ PyStr.startswith (exit_sentence rc) error_field = true)
    /\ (PyStr.contains (exit_sentence rc) err = true ->
        error_field = PyStr.strip err).
Proof.
  intros Hjson Hdata Hcode Hsome Hmk Hwr Hsp Hd H0 H1 H2.
  destruct (exit_code_report E req w data code name d out err rc touch
              Hjson Hdata Hcode Hsome Hmk Hwr Hsp Hd H0 H1 H2) as [lint Hrep].
  eexists _, lint. split; [exact Hrep|]. split.
  - intros Hno. rewrite Hno. split; [reflexivity|].
    apply startswith_spec. now eexists.
  - intros Hyes. now rewrite Hyes.
Qed.

Lemma nonzero_exit_report_witness :
  exists error_field lint,
    fst (execute_python
           (sample_host (Runs 40 "" "boom" 3 (fun files => files)) quiet)
           (submission (JStr "import sys; sys.exit(3)")) empty_world)
    = Response 200 (ReportBody (Report (PyStr.strip "") error_field lint))
    /\ (PyStr.contains (exit_sentence 3) "boom" = false ->
        error_field = exit_sentence 3 ++ PyStr.rstrip (" " ++ "boom")
        /\ PyStr.startswith (exit_sentence 3) error_field = true)
    /\ (PyStr.contains (exit_sentence 3) "boom" = true ->
        error_field = PyStr.strip "boom").
Proof.
  apply (nonzero_exit_report
           (sample_host (Runs 40 "" "boom" 3 (fun files => files)) quiet)
           (submission (JStr "import sys; sys.exit(3)")) empty_world
           (JObj [("code", JStr "import sys; sys.exit(3)")])
           (JStr "import sys; sys.exit(3)") "/tmp/tmpk3v9.py"
           40 "" "boom" 3 (fun files => files));
    solve [reflexivity | lia].
Defined.

(** X9. When the linter cannot be started, the lint field says so: it is
    the header line followed by the runner's failure text. The output and
    error fields are those of the execution. *)
Theorem lint_launch_failure_report
    (E : env) (req : request) (w : world) (data code : json) (name : string) (e : exn) :
  is_json req = true ->
  get_json req = Ok data ->
  dict_get data "code" = Ok code ->
  is_None code = false ->
  mkstemp E (fs w) = Ok name ->
  write_error E code = None ->
  spawn E ["flake8"; name] (fs (snd (exec_call E name w))) = CannotLaunch e ->
  is_TimeoutExpired e = false ->
  fst (execute_python E req w)
  = Response 200 (ReportBody (Report
      (PyStr.strip (output_of (fst (exec_call E name w))))
      (PyStr.strip (error_of (fst (exec_call E name w))))
      ("--- Flake8 Error ---" ++ nl ++ "Error running subprocess:"
       ++ PyStr.rstrip (" " ++ exn_str e)))).
Proof.
  intros Hjson Hdata Hcode Hsome Hmk Hwr Hsp He.
  rewrite (report_of_run E req w data code Hjson Hdata Hcode Hsome name Hmk Hwr).
  assert (Hlint : fst (lint_call E name w)
                  = (None, Some ("Error running subprocess: " ++ exn_str e), (-2)%Z)).
  { unfold lint_call, run_subprocess, subprocess_run. rewrite Hsp. now rewrite He. }
  rewrite Hlint. do 3 f_equal.
  change (lint_feedback_of
            (None, Some ("Error running subprocess: " ++ exn_str e), (-2)%Z))
    with (flake8_error_section ("Error running subprocess: " ++ exn_str e)).
  unfold flake8_error_section. rewrite strip_idem. unfold PyStr.strip.
  change (nl ++ "--- Flake8 Error ---" ++ nl ++ "Error running subprocess: " ++ exn_str e)
    with ((nl ++ "--- Flake8 Error ---" ++ nl ++ "Error running subprocess")
          ++ String ":" (" " ++ exn_str e)).
  now rewrite rstrip_keep by reflexivity.
Qed.

Lemma lint_launch_failure_report_witness :
  fst (execute_python
         (sample_host quiet (CannotLaunch (Exn OSError "[Errno 2] No such file")))
         (submission (JStr "x = 1")) empty_world)
  = Response 200 (ReportBody (Report
      (PyStr.strip (output_of (fst (exec_call
         (sample_host quiet (CannotLaunch (Exn OSError "[Errno 2] No such file")))
         "/tmp/tmpk3v9.py" empty_world))))
      (PyStr.strip (error_of (fst (exec_call
         (sample_host quiet (CannotLaunch (Exn OSError "[Errno 2] No such file")))
         "/tmp/tmpk3v9.py" empty_world))))
      ("--- Flake8 Error ---" ++ nl ++ "Error running subprocess:"
       ++ PyStr.rstrip (" " ++ "[Errno 2] No such file")))).
Proof.
  exact (lint_launch_failure_report
           (sample_host quiet (CannotLaunch (Exn OSError "[Errno 2] No such file")))
           (submission (JStr "x = 1")) empty_world
           (JObj [("code", JStr "x = 1")]) (JStr "x = 1") "/tmp/tmpk3v9.py"
           (Exn OSError "[Errno 2] No such file")
           eq_refl eq_refl eq_refl eq_refl eq_refl eq_refl eq_refl eq_refl).
Defined.

(** ** The boundary checks *)



(** ** The fields of a report *)

Section TrimFacts.
Import PyStr.

Lemma ends_nonspace_cons (c : ascii) (s : string) :
  ends_nonspace s -> ends_nonspace (String c s).
Proof. intros (s' & x & -> & Hx). now exists (String c s'), x. Qed.

Lemma rstrip_cases (s : string) : rstrip s = "" \/ ends_nonspace (rstrip s).
Proof.
  induction s as [|c s IH]; [now left|]. simpl.
  destruct (isspace c) eqn:Hc; simpl.
  - destruct IH as [-> | IH]; [now left|].
    destruct (rstrip s) as [|x r] eqn:Hr; [now left|].
    right. now apply ends_nonspace_cons.
  - right. destruct IH as [-> | IH].
    + now exists "", c.
    + now apply ends_nonspace_cons.
Qed.

Lemma lstrip_ends_nonspace (s : string) :
  ends_nonspace s ->
  (exists c t, lstrip s = String c t /\ isspace c = false)
  /\ ends_nonspace (lstrip s).
Proof.
  induction s as [|x s IH]; intros Hend.
  - destruct Hend as (s' & c & H & _). destruct s'; discriminate.
  - simpl. destruct (isspace x) eqn:Hx.
    + apply IH. destruct Hend as (s' & c & H & Hc).
      destruct s' as [|y s'']; simpl in H.
      * injection H as -> _. congruence.
      * injection H as _ ->. now exists s'', c.
    + split; [now exists x, s | exact Hend].
Qed.

Lemma strip_trimmed (s : string) : trimmed (strip s).
Proof.
  unfold trimmed, strip. destruct (rstrip_cases s) as [-> | Hend].
  - now left.
  - right. now apply lstrip_ends_nonspace.
Qed.

End TrimFacts.

(** X8. Whatever the submission, the interpreter and the linter do, each
    of the three fields of the report comes back without white space at
    either end: it is empty, or it starts and ends with a character that
    is not white space. *)
Theorem report_fields_trimmed
    (E : env) (req : request) (w : world) (data code : json) :
  is_json req = true ->
  get_json req = Ok data ->
  dict_get data "code" = Ok code ->
  is_None code = false ->
  exists rep,
    fst (execute_python E req w) = Response 200 (ReportBody rep)
    /\ trimmed (rep_output rep) /\ trimmed (rep_error rep)
    /\ trimmed (rep_lint_feedback rep).
Proof.
  intros Hjson Hdata Hcode Hsome.
  rewrite (execute_python_reaches E req w data code Hjson Hdata Hcode Hsome).
  rewrite process_submission_response.
  destruct (try_body E code (Locals "" "" "" None, w)) as [[[]|e] st];
    eexists; (split; [reflexivity|]); cbn [rep_output rep_error rep_lint_feedback];
    repeat split; apply strip_trimmed.
Qed.

Lemma report_fields_trimmed_witness :
  exists rep,
    fst (execute_python
           (sample_host (Runs 40 ("  hi " ++ nl) (nl ++ "warn" ++ nl) 0
                           (fun files => files)) quiet)
           (submission (JStr "print(1)")) empty_world)
    = Response 200 (ReportBody rep)
    /\ trimmed (rep_output rep) /\ trimmed (rep_error rep)
    /\ trimmed (rep_lint_feedback rep).
Proof.
  exact (report_fields_trimmed
           (sample_host (Runs 40 ("  hi " ++ nl) (nl ++ "warn" ++ nl) 0
                           (fun files => files)) quiet)
           (submission (JStr "print(1)")) empty_world
           (JObj [("code", JStr "print(1)")]) (JStr "print(1)")
           eq_refl eq_refl eq_refl eq_refl).
Defined.

(** ** The temporary file *)

Section CleanupFacts.

Variable E : env.

(** The three ways the [finally] clause can go once a path is recorded. *)
Lemma finally_clause_cases (l : locals) (w : world) (name : string) :
  temp_file_path l = Some name ->
  (finally_clause E (l, w) = (l, w) /\ (name = "" \/ name ∉ fs w))
  \/ (finally_clause E (l, w)
       = (l, World (fs w ∖ {[name]}) (Removed name :: trace w))
      /\ name <> "" /\ name ∈ fs w /\ remove_fault E name = None)
  \/ (exists e,
        finally_clause E (l, w)
        = (l, World (fs w) (Printed (removal_warning name e) :: trace w))
        /\ name <> "" /\ name ∈ fs w /\ remove_fault E name = Some e).
Proof.
  intros Hpath. unfold finally_clause. rewrite Hpath.
  destruct name as [|c name'] eqn:Hname.
  - left. split; [reflexivity | now left].
  - cbn [PyStr.truthy PyStr.is_empty negb andb]. unfold path_exists.
    destruct (bool_decide (String c name' ∈ fs w)) eqn:Hin.
    + apply bool_decide_eq_true in Hin.
      destruct (remove_fault E (String c name')) as [e|] eqn:Hrm.
      * right. right. exists e. repeat split; [discriminate | exact Hin].
      * right. left. repeat split; [discriminate | exact Hin].
    + apply bool_decide_eq_false in Hin. left. split; [reflexivity | now right].
Qed.

(** The state the [finally] clause starts from once the file exists. *)
Lemma state_before_cleanup (code : json) (w : world) (name : string) :
  mkstemp E (fs w) = Ok name ->
  exists l,
    match try_body E code (Locals "" "" "" None, w) with
    | (Ok _, st) => st
    | (Raise e, st) => except_clause e st
    end = (l, world_before_cleanup E code name w)
    /\ temp_file_path l = Some name.
Proof.
  intros Hmk. unfold world_before_cleanup.
  destruct (write_error E code) as [e|] eqn:Hwr.
  - rewrite (try_body_write_fails E code w name e Hmk Hwr).
    eexists. split; reflexivity.
  - rewrite (try_body_completes E code w name Hmk Hwr).
    eexists. split; reflexivity.
Qed.

Lemma world_before_cleanup_trace (code : json) (w : world) (name : string) :
  trace (world_before_cleanup E code name w) = Created name :: trace w.
Proof.
  unfold world_before_cleanup. destruct (write_error E code); [reflexivity|].
  unfold lint_call, exec_call. now rewrite !run_subprocess_trace.
Qed.

(** A child that leaves the files alone leaves the world alone. *)
Lemma run_subprocess_leaves (command : list string) (timeout : option Z) (w : world) :
  leaves_files (spawn E command (fs w)) ->
  snd (run_subprocess E command timeout w) = w.
Proof.
  unfold run_subprocess, subprocess_run, leaves_files.
  destruct (spawn E command (fs w)) as [e|d out err rc touch|d detail touch];
    intros Hleave.
  - now destruct (is_TimeoutExpired e).
  - rewrite Hleave. destruct w as [files events]. cbn [fs trace].
    destruct timeout as [t|]; [|reflexivity].
    now destruct (t * 1000 <? Z.of_N d)%Z.
  - rewrite Hleave. destruct w as [files events]. cbn [fs trace].
    destruct timeout as [t|]; [|reflexivity].
    now destruct (t * 1000 <? Z.of_N d)%Z.
Qed.

Lemma world_before_cleanup_leaves (code : json) (w : world) (name : string) :
  (forall command files, leaves_files (spawn E command files)) ->
  world_before_cleanup E code name w = with_workspace name w.
Proof.
  intros Hleave. unfold world_before_cleanup.
  destruct (write_error E code); [reflexivity|].
  unfold lint_call, exec_call. now rewrite !run_subprocess_leaves by apply Hleave.
Qed.

End CleanupFacts.

(** X4. No scratch file is left behind: when the temporary name is new,
    [os.remove] works and neither child changes the file namespace, the
    files after the call are the files before it, on every path through
    the [try] body (write failure included), and the handler did exactly
    one creation followed by one removal. *)
Theorem no_file_left_behind
    (E : env) (req : request) (w : world) (data code : json) (name : string) :
  is_json req = true ->
  get_json req = Ok data ->
  dict_get data "code" = Ok code ->
  is_None code = false ->
  mkstemp E (fs w) = Ok name ->
  name <> "" ->
  name ∉ fs w ->
  remove_fault E name = None ->
  (forall command files, leaves_files (spawn E command files)) ->
  snd (execute_python E req w)
  = World (fs w) (Removed name :: Created name :: trace w).
Proof.
  intros Hjson Hdata Hcode Hsome Hmk Hne Hfresh Hrm Hleave.
  rewrite (execute_python_reaches E req w data code Hjson Hdata Hcode Hsome).
  rewrite process_submission_world.
  destruct (state_before_cleanup E code w name Hmk) as (l & -> & Hpath).
  rewrite (world_before_cleanup_leaves E code w name Hleave).
  destruct (finally_clause_cases E l (with_workspace name w) name Hpath)
    as [[_ [Hempty | Hout]] | [(-> & _) | (e & _ & _ & _ & Hfail)]].
  - congruence.
  - exfalso. apply Hout. cbn [with_workspace fs].
    apply elem_of_union_l. now apply elem_of_singleton.
  - cbn [snd with_workspace fs trace]. f_equal.
    apply set_eq. intros p.
    rewrite elem_of_difference, elem_of_union, elem_of_singleton.
    split; [tauto|]. intros Hp. split; [now right|]. congruence.
  - congruence.
Qed.

Lemma no_file_left_behind_witness :
  snd (execute_python (uniform_host quiet None) (submission (JInt 7)) empty_world)
  = World (fs empty_world)
      (Removed "/tmp/tmpk3v9.py" :: Created "/tmp/tmpk3v9.py" :: trace empty_world).
Proof.
  apply (no_file_left_behind (uniform_host quiet None) (submission (JInt 7))
           empty_world (JObj [("code", JInt 7)]) (JInt 7) "/tmp/tmpk3v9.py");
    try reflexivity.
  - discriminate.
  - apply not_elem_of_empty.
  - intros command files files'. reflexivity.
Defined.

(** X5. The handler never removes a file other than the one it created:
    every other path is among the files after the call exactly when the
    children left it there, and a removal recorded in the trace is that of
    the created file. *)
Theorem only_own_file_removed
    (E : env) (req : request) (w : world) (data code : json) (name : string) :
  is_json req = true ->
  get_json req = Ok data ->
  dict_get data "code" = Ok code ->
  is_None code = false ->
  mkstemp E (fs w) = Ok name ->
  (forall p, p <> name ->
     (p ∈ fs (snd (execute_python E req w))
      <-> p ∈ fs (world_before_cleanup E code name w)))
  /\ exists events,
       trace (snd (execute_python E req w)) = (events ++ trace w)%list
       /\ forall p, In p (removed_paths events) -> p = name.
Proof.
  intros Hjson Hdata Hcode Hsome Hmk.
  rewrite (execute_python_reaches E req w data code Hjson Hdata Hcode Hsome).
  rewrite process_submission_world.
  destruct (state_before_cleanup E code w name Hmk) as (l & -> & Hpath).
  pose proof (world_before_cleanup_trace E code w name) as Htrace.
  destruct (finally_clause_cases E l (world_before_cleanup E code name w) name Hpath)
    as [[-> _] | [(-> & _) | (e & -> & _)]]; cbn [snd fs trace]; split.
  - tauto.
  - exists [Created name]. split; [now rewrite Htrace | intros p []].
  - intros p Hp. rewrite elem_of_difference, elem_of_singleton. tauto.
  - exists [Removed name; Created name]. split; [now rewrite Htrace|].
    intros p [<- | []]. reflexivity.
  - tauto.
  - exists [Printed (removal_warning name e); Created name].
    split; [now rewrite Htrace | intros p []].
Qed.

Lemma only_own_file_removed_witness :
  (forall p, p <> "/tmp/tmpk3v9.py" ->
     (p ∈ fs (snd (execute_python (uniform_host quiet None)
                     (submission (JStr "x = 1")) empty_world))
      <-> p ∈ fs (world_before_cleanup (uniform_host quiet None) (JStr "x = 1")
                    "/tmp/tmpk3v9.py" empty_world)))
  /\ exists events,
       trace (snd (execute_python (uniform_host quiet None)
                     (submission (JStr "x = 1")) empty_world))
       = (events ++ trace empty_world)%list
       /\ forall p, In p (removed_paths events) -> p = "/tmp/tmpk3v9.py".
Proof.
  exact (only_own_file_removed (uniform_host quiet None) (submission (JStr "x = 1"))
           empty_world (JObj [("code", JStr "x = 1")]) (JStr "x = 1") "/tmp/tmpk3v9.py"
           eq_refl eq_refl eq_refl eq_refl eq_refl).
Defined.

(** X6. When the file is already gone at the end (the submission deleted
    it), the [finally] clause does nothing: no removal is attempted and
    nothing is printed, even on a host where [os.remove] would fail. *)
Theorem missing_file_not_removed
    (E : env) (req : request) (w : world) (data code : json) (name : string) :
  is_json req = true ->
  get_json req = Ok data ->
  dict_get data "code" = Ok code ->
  is_None code = false ->
  mkstemp E (fs w) = Ok name ->
  name ∉ fs (world_before_cleanup E code name w) ->
  snd (execute_python E req w) = world_before_cleanup E code name w
  /\ trace (snd (execute_python E req w)) = Created name :: trace w.
Proof.
  intros Hjson Hdata Hcode Hsome Hmk Hgone.
  rewrite (execute_python_reaches E req w data code Hjson Hdata Hcode Hsome).
  rewrite process_submission_world.
  destruct (state_before_cleanup E code w name Hmk) as (l & -> & Hpath).
  destruct (finally_clause_cases E l (world_before_cleanup E code name w) name Hpath)
    as [[-> _] | [(_ & _ & Hin & _) | (e & _ & _ & Hin & _)]];
    [|contradiction..].
  split; [reflexivity | apply world_before_cleanup_trace].
Qed.

Lemma missing_file_not_removed_witness :
  snd (execute_python
         (uniform_host self_deleting (Some (Exn OSError "[Errno 13] Permission denied")))
         (submission (JStr "import os; os.remove(__file__)")) empty_world)
  = world_before_cleanup
      (uniform_host self_deleting (Some (Exn OSError "[Errno 13] Permission denied")))
      (JStr "import os; os.remove(__file__)") "/tmp/tmpk3v9.py" empty_world
  /\ trace (snd (execute_python
                   (uniform_host self_deleting
                      (Some (Exn OSError "[Errno 13] Permission denied")))
                   (submission (JStr "import os; os.remove(__file__)")) empty_world))
     = Created "/tmp/tmpk3v9.py" :: trace empty_world.
Proof.
  apply (missing_file_not_removed
           (uniform_host self_deleting (Some (Exn OSError "[Errno 13] Permission denied")))
           (submission (JStr "import os; os.remove(__file__)")) empty_world
           (JObj [("code", JStr "import os; os.remove(__file__)")])
           (JStr "import os; os.remove(__file__)") "/tmp/tmpk3v9.py");
    try reflexivity.
  cbn. rewrite !elem_of_difference, elem_of_singleton. tauto.
Defined.

(** X7. When the file is still there at the end and [os.remove] fails
    with [e], the file stays, the handler prints one warning naming the
    path and [e], and the request is answered all the same. *)
Theorem failed_removal_keeps_file
    (E : env) (req : request) (w : world) (data code : json) (name : string) (e : exn) :
  is_json req = true ->
  get_json req = Ok data ->
  dict_get data "code" = Ok code ->
  is_None code = false ->
  mkstemp E (fs w) = Ok name ->
  name <> "" ->
  name ∈ fs (world_before_cleanup E code name w) ->
  remove_fault E name = Some e ->
  snd (execute_python E req w)
  = World (fs (world_before_cleanup E code name w))
      (Printed (removal_warning name e) :: Created name :: trace w)
  /\ name ∈ fs (snd (execute_python E req w))
  /\ exists rep, fst (execute_python E req w) = Response 200 (ReportBody rep).
Proof.
  intros Hjson Hdata Hcode Hsome Hmk Hne Hin Hrm.
  rewrite (execute_python_reaches E req w data code Hjson Hdata Hcode Hsome).
  assert (Hworld : snd (process_submission E code w)
                   = World (fs (world_before_cleanup E code name w))
                       (Printed (removal_warning name e) :: Created name :: trace w)).
  { rewrite process_submission_world.
    destruct (state_before_cleanup E code w name Hmk) as (l & -> & Hpath).
    destruct (finally_clause_cases E l (world_before_cleanup E code name w) name Hpath)
      as [[_ [Hempty | Hout]] | [(_ & _ & _ & Hnone) | (e' & -> & _ & _ & Hsome')]];
      try congruence; try contradiction.
    cbn [snd]. rewrite world_before_cleanup_trace. congruence. }
  split; [exact Hworld|]. split.
  - now rewrite Hworld.
  - destruct (process_submission_total E code w) as (rep & w' & ->). now exists rep.
Qed.

Lemma failed_removal_keeps_file_witness :
  snd (execute_python
         (uniform_host quiet (Some (Exn OSError "[Errno 13] Permission denied")))
         (submission (JStr "x = 1")) empty_world)
  = World (fs (world_before_cleanup
                 (uniform_host quiet (Some (Exn OSError "[Errno 13] Permission denied")))
                 (JStr "x = 1") "/tmp/tmpk3v9.py" empty_world))
      (Printed (removal_warning "/tmp/tmpk3v9.py"
                  (Exn OSError "[Errno 13] Permission denied"))
       :: Created "/tmp/tmpk3v9.py" :: trace empty_world)
  /\ "/tmp/tmpk3v9.py"
     ∈ fs (snd (execute_python
                  (uniform_host quiet (Some (Exn OSError "[Errno 13] Permission denied")))
                  (submission (JStr "x = 1")) empty_world))
  /\ exists rep,
       fst (execute_python
              (uniform_host quiet (Some (Exn OSError "[Errno 13] Permission denied")))
              (submission (JStr "x = 1")) empty_world)
       = Response 200 (ReportBody rep).
Proof.
  apply (failed_removal_keeps_file
           (uniform_host quiet (Some (Exn OSError "[Errno 13] Permission denied")))
           (submission (JStr "x = 1")) empty_world
           (JObj [("code", JStr "x = 1")]) (JStr "x = 1") "/tmp/tmpk3v9.py"
           (Exn OSError "[Errno 13] Permission denied"));
    solve [reflexivity | discriminate].
Defined.

(** ** Linter output without the expected shape *)

Section PassThroughFacts.
Import PyStr.

Lemma split_keeps_free_of (c sep : ascii) (s : string) :
  free_of c s = true -> Forall (fun field => free_of c field = true) (split sep s).
Proof.
  unfold split. induction s as [|x s IH]; simpl.
  - intros _. repeat constructor.
  - intros [Hx Hs]%andb_true_iff. specialize (IH Hs).
    destruct (split_fields sep s) as [f fields].
    inversion IH as [|? ? Hf Hfields]; subst.
    destruct (Ascii.eqb x sep).
    + constructor; [reflexivity | now constructor].
    + constructor; [|exact Hfields]. simpl. now rewrite Hx, Hf.
Qed.

Lemma format_line_colon_free (line : string) :
  free_of ":" line = true -> format_line line = line.
Proof.
  intros Hfree. unfold format_line. simpl splitn.
  now rewrite (proj2 (cut_none ":" line line) (conj eq_refl Hfree)).
Qed.

End PassThroughFacts.

(** X10. Linter output that holds no colon at all has no line of the
    diagnostic shape, and is handed on as it is, up to the trimming of
    white space at its two ends. *)
Theorem colon_free_output_unchanged (lint_stdout : string) :
  PyStr.free_of ":" lint_stdout = true ->
  format_lint_output lint_stdout = PyStr.strip lint_stdout.
Proof.
  intros Hfree. unfold format_lint_output.
  pose proof (split_keeps_free_of ":" LF (PyStr.strip lint_stdout)
                (free_of_strip ":" lint_stdout Hfree)) as Hall.
  replace (map format_line (PyStr.split LF (PyStr.strip lint_stdout)))
    with (PyStr.split LF (PyStr.strip lint_stdout)).
  - apply join_split.
  - induction Hall as [|line lines Hline _ IH]; [reflexivity|].
    cbn [map]. now rewrite (format_line_colon_free line Hline), <- IH.
Qed.

Lemma colon_free_output_unchanged_witness :
  format_lint_output ("  2 files checked" ++ nl ++ "no config found" ++ nl)
  = PyStr.strip ("  2 files checked" ++ nl ++ "no config found" ++ nl).
Proof.
  exact (colon_free_output_unchanged
           ("  2 files checked" ++ nl ++ "no config found" ++ nl) eq_refl).
Defined.

(** ** The runner's deadline *)

(** X11. A command that the runner reports as completed under a timeout
    of [t] seconds is reported in the same way under every longer timeout
    and under none: giving a command more time never changes a completed
    run into a timeout. *)
Theorem longer_deadline_keeps_result
    (E : env) (command : list string) (t t' : Z) (w : world)
    (out err : string) (rc : Z) :
  (t <= t')%Z ->
  fst (run_subprocess E command (Some t) w) = (Some out, Some err, rc) ->
  run_subprocess E command (Some t') w = run_subprocess E command (Some t) w
  /\ run_subprocess E command None w = run_subprocess E command (Some t) w.
Proof.
  intros Hle. unfold run_subprocess, subprocess_run.
  destruct (spawn E command (fs w)) as [e|d o e' c touch|d detail touch].
  - destruct (is_TimeoutExpired e); discriminate.
  - destruct (t * 1000 <? Z.of_N d)%Z eqn:Ht; [discriminate|].
    intros _. apply Z.ltb_ge in Ht.
    assert (Ht' : (t' * 1000 <? Z.of_N d)%Z = false) by (apply Z.ltb_ge; lia).
    rewrite Ht'. now split.
  - destruct (t * 1000 <? Z.of_N d)%Z; discriminate.
Qed.

Lemma longer_deadline_keeps_result_witness :
  run_subprocess (sample_host (Runs 4000 "done" "" 0 (fun files => files)) quiet)
    ["python"; "/tmp/tmpk3v9.py"] (Some 30%Z) empty_world
  = run_subprocess (sample_host (Runs 4000 "done" "" 0 (fun files => files)) quiet)
      ["python"; "/tmp/tmpk3v9.py"] (Some 5%Z) empty_world
  /\ run_subprocess (sample_host (Runs 4000 "done" "" 0 (fun files => files)) quiet)
       ["python"; "/tmp/tmpk3v9.py"] None empty_world
     = run_subprocess (sample_host (Runs 4000 "done" "" 0 (fun files => files)) quiet)
         ["python"; "/tmp/tmpk3v9.py"] (Some 5%Z) empty_world.
Proof.
  apply (longer_deadline_keeps_result
           (sample_host (Runs 4000 "done" "" 0 (fun files => files)) quiet)
           ["python"; "/tmp/tmpk3v9.py"] 5 30 empty_world "done" "" 0);
    [lia | reflexivity].
Defined.

(** ** Output that is not text *)

(** A child whose output cannot be decoded, once its streams are closed
    within the deadline: the runner reports the failure triple. *)
Lemma exec_call_undecodable (E : env) (name : string) (w : world)
    (d : N) (detail : string) (touch : gset string -> gset string) :
  spawn E ["python"; name] (fs (with_workspace name w)) = Undecodable d detail touch ->
  (d <= 5000)%N ->
  fst (exec_call E name w)
  = (None, Some ("Error running subprocess: " ++ detail), (-2)%Z).
Proof.
  intros Hsp Hd. unfold exec_call, run_subprocess, subprocess_run.
  rewrite Hsp. unfold EXECUTION_TIMEOUT.
  destruct (5 * 1000 <? Z.of_N d)%Z eqn:Hlt; [|reflexivity].
  apply Z.ltb_lt in Hlt. lia.
Qed.

(** X12. A submission that ends within the deadline but wrote bytes that
    are not valid text is reported like a command that could not be
    started: the output is empty, whatever the return code was, and the
    error field is the launch-failure sentence followed by the runner's
    text for the decoding error. *)
Theorem undecodable_output_report
    (E : env) (req : request) (w : world) (data code : json) (name : string)
    (d : N) (detail : string) (touch : gset string -> gset string) :
  is_json req = true ->
  get_json req = Ok data ->
  dict_get data "code" = Ok code ->
  is_None code = false ->
  mkstemp E (fs w) = Ok name ->
  write_error E code = None ->
  spawn E ["python"; name] (fs (with_workspace name w)) = Undecodable d detail touch ->
  (d <= 5000)%N ->
  exists lint,
    fst (execute_python E req w)
    = Response 200 (ReportBody (Report ""
        ("Execution Error: Failed to run subprocess. Error running subprocess:"
         ++ PyStr.rstrip (" " ++ detail))
        lint)).
Proof.
  intros Hjson Hdata Hcode Hsome Hmk Hwr Hsp Hd.
  rewrite (report_of_run E req w data code Hjson Hdata Hcode Hsome name Hmk Hwr).
  rewrite (exec_call_undecodable E name w d detail touch Hsp Hd).
  unfold error_of, add_error_context, output_of. cbn [Z.eqb Pos.eqb].
  rewrite strip_idem.
  change ("Execution Error: Failed to run subprocess. "
          ++ "Error running subprocess: " ++ detail)
    with ("Execution Error: Failed to run subprocess. Error running subprocess: "
          ++ detail).
  rewrite strip_failure_text. eexists. reflexivity.
Qed.

Lemma undecodable_output_report_witness :
  exists lint,
    fst (execute_python
           (sample_host
              (Undecodable 40 "'utf-8' codec can't decode byte 0xff in position 0"
                 (fun files => files))
              quiet)
           (submission (JStr "import sys; sys.stdout.buffer.write(bytes([255]))"))
           empty_world)
    = Response 200 (ReportBody (Report ""
        ("Execution Error: Failed to run subprocess. Error running subprocess:"
         ++ PyStr.rstrip (" " ++ "'utf-8' codec can't decode byte 0xff in position 0"))
        lint)).
Proof.
  apply (undecodable_output_report
           (sample_host
              (Undecodable 40 "'utf-8' codec can't decode byte 0xff in position 0"
                 (fun files => files))
              quiet)
           (submission (JStr "import sys; sys.stdout.buffer.write(bytes([255]))"))
           empty_world
           (JObj [("code", JStr "import sys; sys.stdout.buffer.write(bytes([255]))")])
           (JStr "import sys; sys.stdout.buffer.write(bytes([255]))")
           "/tmp/tmpk3v9.py" 40 "'utf-8' codec can't decode byte 0xff in position 0"
           (fun files => files));
    solve [reflexivity | lia].
Defined.

(** ** Diagnostics end to end *)

(** The formatter on a trimmed text given by its lines. *)
Lemma format_lint_output_of_lines (lines : list string) :
  lines <> [] ->
  Forall (fun line => PyStr.free_of LF line = true) lines ->
  PyStr.strip (PyStr.join nl lines) = PyStr.join nl lines ->
  format_lint_output (PyStr.join nl lines) = PyStr.join nl (map format_line lines).
Proof.
  intros Hne Hfree Htrim. unfold format_lint_output.
  rewrite Htrim. unfold nl. now rewrite split_join.
Qed.

(** X13. When the linter prints the lines [lines] (a non-empty text
    without white space at its two ends) and nothing on its error stream,
    the lint field is those lines, each formatted, joined by line feeds
    and trimmed, however long the linter ran and whatever its return code.
    The output and error fields are those of the execution. *)
Theorem lint_findings_report
    (E : env) (req : request) (w : world) (data code : json) (name : string)
    (d : N) (lines : list string) (rc : Z) (touch : gset string -> gset string) :
  is_json req = true ->
  get_json req = Ok data ->
  dict_get data "code" = Ok code ->
  is_None code = false ->
  mkstemp E (fs w) = Ok name ->
  write_error E code = None ->
  spawn E ["flake8"; name] (fs (snd (exec_call E name w)))
  = Runs d (PyStr.join nl lines) "" rc touch ->
  lines <> [] ->
  Forall (fun line => PyStr.free_of LF line = true) lines ->
  PyStr.strip (PyStr.join nl lines) = PyStr.join nl lines ->
  PyStr.join nl lines <> "" ->
  fst (execute_python E req w)
  = Response 200 (ReportBody (Report
      (PyStr.strip (output_of (fst (exec_call E name w))))
      (PyStr.strip (error_of (fst (exec_call E name w))))
      (PyStr.strip (PyStr.join nl (map format_line lines))))).
Proof.
  intros Hjson Hdata Hcode Hsome Hmk Hwr Hsp Hne Hfree Htrim Hout.
  rewrite (report_of_run E req w data code Hjson Hdata Hcode Hsome name Hmk Hwr).
  rewrite (lint_call_runs E name w d _ "" rc touch Hsp).
  assert (Hempty : PyStr.is_empty (PyStr.join nl lines) = false)
    by (destruct (PyStr.join nl lines); [congruence | reflexivity]).
  unfold lint_feedback_of. rewrite Hempty. cbn [PyStr.is_empty].
  rewrite append_nil_r.
  now rewrite (format_lint_output_of_lines lines Hne Hfree Htrim).
Qed.

Lemma lint_findings_report_witness :
  fst (execute_python
         (sample_host quiet
            (Runs 9000000
               (PyStr.join nl
                  ["/tmp/tmpk3v9.py:1:2: E225 missing whitespace around operator";
                   "/tmp/tmpk3v9.py:3:1: W391 blank line at end of file"])
               "" 1 (fun files => files)))
         (submission (JStr "x=1")) empty_world)
  = Response 200 (ReportBody (Report
      (PyStr.strip (output_of (fst (exec_call
         (sample_host quiet
            (Runs 9000000
               (PyStr.join nl
                  ["/tmp/tmpk3v9.py:1:2: E225 missing whitespace around operator";
                   "/tmp/tmpk3v9.py:3:1: W391 blank line at end of file"])
               "" 1 (fun files => files)))
         "/tmp/tmpk3v9.py" empty_world))))
      (PyStr.strip (error_of (fst (exec_call
         (sample_host quiet
            (Runs 9000000
               (PyStr.join nl
                  ["/tmp/tmpk3v9.py:1:2: E225 missing whitespace around operator";
                   "/tmp/tmpk3v9.py:3:1: W391 blank line at end of file"])
               "" 1 (fun files => files)))
         "/tmp/tmpk3v9.py" empty_world))))
      (PyStr.strip
         (PyStr.join nl
            ["L1:2: E225 missing whitespace around operator";
             "L3:1: W391 blank line at end of file"])))).
Proof.
  apply (lint_findings_report
           (sample_host quiet
              (Runs 9000000
                 (PyStr.join nl
                    ["/tmp/tmpk3v9.py:1:2: E225 missing whitespace around operator";
                     "/tmp/tmpk3v9.py:3:1: W391 blank line at end of file"])
                 "" 1 (fun files => files)))
           (submission (JStr "x=1")) empty_world
           (JObj [("code", JStr "x=1")]) (JStr "x=1") "/tmp/tmpk3v9.py" 9000000
           ["/tmp/tmpk3v9.py:1:2: E225 missing whitespace around operator";
            "/tmp/tmpk3v9.py:3:1: W391 blank line at end of file"]
           1 (fun files => files));
    try reflexivity.
  - discriminate.
  - repeat constructor.
  - discriminate.
Defined.
